(** * Property value statistics: a shallow embedding

    The development follows
    [src/property_value_analysis/property_value_statistics.py]:
    the class [PropertyValueStatistics], its taxonomy flattener
    ([_flatten_street_tree_type], [_flatten_street_trees]) and its
    price aggregator ([_calculate_average_price] and the two public
    wrappers).

    Python values are a tagged union, dictionaries received from the JSON
    and CSV loaders are association lists in insertion order, the flattened
    index built by the class is a finite map, exceptions are an error
    monad, and Python floats are IEEE 754 binary64 numbers
    ([spec_float] at precision 53).

    The second part follows the modules around the class: the
    configuration look-up of [utils/config.py], the logger of
    [utils/logger.py], the three parsers of [file_parsers.py] and the
    entry point of [main.py], over a record of what the program finds in
    its files. *)

From Stdlib Require Import ZArith Ascii String List Bool.
From Stdlib Require Import Floats.SpecFloat.
From stdpp Require Import base option list gmap strings pretty fin_maps.

Local Open Scope string_scope.
Local Open Scope Z_scope.

(** * Exceptions *)

Module Py.

(** The exception classes that the modelled code raises or lets escape. *)
Inductive exn : Type :=
  | ValueError
  | KeyError
  | TypeError
  | AttributeError
  | OverflowError.

Inductive result (A : Type) : Type :=
  | Ok (a : A)
  | Raise (e : exn).

Arguments Ok {A} a.
Arguments Raise {A} e.

Definition bind {A B : Type} (r : result A) (k : A -> result B) : result B :=
  match r with
  | Ok a => k a
  | Raise e => Raise e
  end.

End Py.

Import Py.

(** [x ← r; k] runs [k] on the value of [r] and passes an exception on. *)
#[global] Instance result_bind : MBind result :=
  fun A B k r => bind r k.
#[global] Instance result_ret : MRet result := @Ok.

(** * Binary64 floats

    A Python [float] is an IEEE 754 binary64 number.  The operations are
    those of the standard library's specification of floating-point
    arithmetic, at precision 53 and maximal exponent 1024, with rounding
    to nearest, ties to even. *)

Module F64.

Definition prec : Z := 53.
Definition emax : Z := 1024.

Definition float : Type := spec_float.

Definition zero : float := S754_zero false.

Definition add : float -> float -> float := SFadd prec emax.
Definition div : float -> float -> float := SFdiv prec emax.

(** Correctly rounded quotient [n / d] of two integers, [0 < d], with the
    sign given apart (so that a zero keeps its sign). *)
Definition of_ratio (s : bool) (n d : Z) : float :=
  match n with
  | Z0 => S754_zero s
  | _ =>
      let '(q, e, l) := SFdiv_core_binary prec emax (Z.abs n) 0 d 0 in
      binary_round_aux prec emax s q e l
  end.

(** The float nearest to [m * 10 ^ e10], for a non-negative [m]. *)
Definition of_decimal (s : bool) (m e10 : Z) : float :=
  if 0 <=? e10 then of_ratio s (m * 10 ^ e10) 1
  else of_ratio s m (10 ^ (- e10)).

(** The float nearest to an integer. *)
Definition of_Z (n : Z) : float := binary_normalize prec emax n 0 false.

(** The conversion of a Python [int] operand of a float operation: an
    integer that rounds beyond the largest float is refused. *)
Definition of_int (n : Z) : result float :=
  match of_Z n with
  | S754_infinity _ => Raise OverflowError
  | x => Ok x
  end.

(** [0 <= x], false on NaN. *)
Definition nonneg (x : float) : bool := SFleb zero x.

Definition is_finite (x : float) : bool :=
  match x with
  | S754_zero _ | S754_finite _ _ _ => true
  | _ => false
  end.

(** [x] is a number (not NaN) of sign [s]. *)
Definition signed (s : bool) (x : float) : Prop :=
  match x with
  | S754_zero s' | S754_infinity s' | S754_finite s' _ _ => s' = s
  | S754_nan => False
  end.

(** [x] is neither zero nor NaN. *)
Definition nonzero (x : float) : Prop :=
  match x with
  | S754_infinity _ | S754_finite _ _ _ => True
  | _ => False
  end.

End F64.

(** * Python values

    The values that reach the class from [json.load] and
    [csv.DictReader]: [None], booleans, integers, floats, strings, lists and
    dictionaries with string keys.  A dictionary is the list of its items
    in insertion order; a lookup returns the first item with the key (a
    Python dictionary holds each key once). *)

#[local] Unset Elimination Schemes.

Inductive pyval : Type :=
  | PyNone
  | PyBool (b : bool)
  | PyInt (n : Z)
  | PyFloat (x : F64.float)
  | PyStr (s : string)
  | PyList (l : list pyval)
  | PyDict (d : list (string * pyval)).

#[local] Set Elimination Schemes.

Definition pydict : Type := list (string * pyval).

Definition is_dict (v : pyval) : bool :=
  match v with PyDict _ => true | _ => false end.

(** [d.get(key)] *)
Fixpoint dict_get (d : pydict) (key : string) : option pyval :=
  match d with
  | [] => None
  | (k, v) :: rest => if String.eqb k key then Some v else dict_get rest key
  end.

(** * Strings *)

Module Str.

Definition code (c : ascii) : Z := Z.of_N (N_of_ascii c).

Definition is_upper (c : ascii) : bool := (65 <=? code c) && (code c <=? 90).
Definition is_digit (c : ascii) : bool := (48 <=? code c) && (code c <=? 57).

(** The characters of [Py_ISSPACE]: tab, line feed, vertical tab, form
    feed, carriage return and space. *)
Definition is_space (c : ascii) : bool :=
  ((9 <=? code c) && (code c <=? 13)) || (code c =? 32).

Definition lower_ascii (c : ascii) : ascii :=
  if is_upper c then ascii_of_N (N_of_ascii c + 32) else c.

(** [s.lower()], on the ASCII letters; other bytes are kept. *)
Fixpoint lower (s : string) : string :=
  match s with
  | EmptyString => EmptyString
  | String c rest => String (lower_ascii c) (lower rest)
  end.

(** [s.replace(",", "")] *)
Fixpoint remove_commas (s : string) : string :=
  match s with
  | EmptyString => EmptyString
  | String c rest =>
      if Ascii.eqb c "," then remove_commas rest
      else String c (remove_commas rest)
  end.

(** [sub in s] for two strings. *)
Definition contains (s sub : string) : bool :=
  match String.index 0 sub s with
  | Some _ => true
  | None => false
  end.

Fixpoint lstrip (s : list ascii) : list ascii :=
  match s with
  | c :: rest => if is_space c then lstrip rest else s
  | [] => []
  end.

Definition strip (s : list ascii) : list ascii :=
  rev (lstrip (rev (lstrip s))).

End Str.

(** * [float(text)]

    CPython's [float_from_string]: single underscores between digits are
    dropped, white space is stripped at both ends, and what is left is a
    signed decimal literal (digits, optional point, optional exponent) or
    one of [inf], [infinity], [nan] in any letter case.  The literal is
    converted with correct rounding; a literal too large gives an
    infinity. *)

Module Parse.

Import Str.

Definition is_underscore (c : ascii) : bool := Ascii.eqb c "_".

(** The check of [_Py_string_to_number_with_underscores]; [prev] is the
    character before [s]. *)
Fixpoint drop_underscores (prev : ascii) (s : list ascii)
  : option (list ascii) :=
  match s with
  | [] => if is_underscore prev then None else Some []
  | c :: rest =>
      if is_underscore c then
        if is_digit prev then drop_underscores c rest else None
      else if is_underscore prev && negb (is_digit c) then None
      else option_map (cons c) (drop_underscores c rest)
  end.

Definition sign (s : list ascii) : bool * list ascii :=
  match s with
  | c :: rest =>
      if Ascii.eqb c "-" then (true, rest)
      else if Ascii.eqb c "+" then (false, rest)
      else (false, s)
  | [] => (false, s)
  end.

Fixpoint span_digits (s : list ascii) : list ascii * list ascii :=
  match s with
  | c :: rest =>
      if is_digit c then
        let '(ds, tl) := span_digits rest in (c :: ds, tl)
      else ([], s)
  | [] => ([], [])
  end.

Definition digits_value (ds : list ascii) : Z :=
  fold_left (fun acc c => 10 * acc + (code c - 48)) ds 0.

(** The exponent part; it has to reach the end of the text. *)
Definition exponent (s : list ascii) : option Z :=
  match s with
  | [] => Some 0
  | c :: rest =>
      if Ascii.eqb (lower_ascii c) "e" then
        let '(neg, r1) := sign rest in
        match span_digits r1 with
        | (((_ :: _) as ds), []) =>
            Some (if neg then - digits_value ds else digits_value ds)
        | _ => None
        end
      else None
  end.

(** Mantissa and decimal exponent of a literal without its sign. *)
Definition decimal (s : list ascii) : option (Z * Z) :=
  let '(ip, r) := span_digits s in
  let '(fp, r') :=
    match r with
    | c :: r1 => if Ascii.eqb c "." then span_digits r1 else ([], r)
    | [] => ([], r)
    end in
  match (ip ++ fp)%list with
  | [] => None
  | ds =>
      match exponent r' with
      | Some e => Some (digits_value ds, e - Z.of_nat (length fp))
      | None => None
      end
  end.

Definition inf_or_nan (neg : bool) (s : list ascii) : option F64.float :=
  let w := string_of_list_ascii (map lower_ascii s) in
  if String.eqb w "inf" || String.eqb w "infinity"
  then Some (S754_infinity neg)
  else if String.eqb w "nan" then Some S754_nan
  else None.

Definition py_float (text : string) : result F64.float :=
  match drop_underscores zero (list_ascii_of_string text) with
  | None => Raise ValueError
  | Some cs =>
      let '(neg, body) := sign (strip cs) in
      match decimal body with
      | Some (m, e) => Ok (F64.of_decimal neg m e)
      | None =>
          match inf_or_nan neg body with
          | Some x => Ok x
          | None => Raise ValueError
          end
      end
  end.

End Parse.

(** * [round(x, ndigits)] for a float and a natural number [ndigits]

    CPython's [float.__round__] with [ndigits] given: NaN and the
    infinities are returned as they are; otherwise the exact value is
    rounded to [ndigits] decimals, ties to even, and the decimal is
    converted back with correct rounding ([double_round]). *)

Module Round.

(** The integer nearest to [n / d], ties to even, for [0 <= n], [0 < d]. *)
Definition half_even (n d : Z) : Z :=
  let q := n / d in
  match Z.compare (2 * (n mod d)) d with
  | Lt => q
  | Gt => q + 1
  | Eq => if Z.even q then q else q + 1
  end.

Definition py_round (x : F64.float) (ndigits : N) : F64.float :=
  match x with
  | S754_finite s m e =>
      if (323 <? ndigits)%N then x
      else
        let scaled :=
          if 0 <=? e then Zpos m * 2 ^ e * 10 ^ Z.of_N ndigits
          else half_even (Zpos m * 10 ^ Z.of_N ndigits) (2 ^ (- e)) in
        F64.of_decimal s scaled (- Z.of_N ndigits)
  | _ => x
  end.

(** [x] is the float nearest to a decimal with two fraction digits. *)
Definition two_decimals (x : F64.float) : Prop :=
  exists (s : bool) (n : Z), 0 <= n /\ x = F64.of_decimal s n (-2).

End Round.

(** * The class [PropertyValueStatistics] *)

(** The flattened index [{street: {tree_type: True}}]. *)
Abbreviation index := (gmap string (gmap string bool)).

(** [isinstance(value, int) and value >= 0]; [bool] is a subclass of [int]
    and [False], [True] compare as [0], [1]. *)
Definition is_height (value : pyval) : bool :=
  match value with
  | PyInt n => 0 <=? n
  | PyBool _ => true
  | _ => false
  end.

(** Lines 170-172: create the entry of [key] when it is new, then set the
    flag of [tree_type] in it. *)
Definition record_street (key tree_type : string) (flattened : index) : index :=
  let flattened :=
    match flattened !! key with
    | Some _ => flattened
    | None => <[key := ∅]> flattened
    end in
  <[key := <[tree_type := true]> (default ∅ (flattened !! key))]> flattened.

(** [_flatten_street_tree_type]: [street_trees.items()] fails on a value
    that is not a dictionary; the loop descends into dictionaries and
    records a street for every other value that is a height.  The depth
    of the recursion is not bounded here; the interpreter's recursion
    limit is outside the model. *)
Fixpoint flatten_street_tree_type
    (street_trees : pyval) (tree_type : string) (flattened : index)
    {struct street_trees} : result index :=
  match street_trees with
  | PyDict items =>
      (fix each (items : pydict) (flattened : index) {struct items}
         : result index :=
         match items with
         | [] => Ok flattened
         | (key, value) :: rest =>
             if is_dict value then
               flattened ← flatten_street_tree_type value tree_type flattened;
               each rest flattened
             else if is_height value then
               each rest (record_street key tree_type flattened)
             else each rest flattened
         end) items flattened
  | _ => Raise AttributeError
  end.

(** The loop of [_flatten_street_trees] over the categories. *)
Fixpoint flatten_categories (street_trees : pydict) (flattened : index)
  : result index :=
  match street_trees with
  | [] => Ok flattened
  | (tree_type, nested_data) :: rest =>
      flattened ← flatten_street_tree_type nested_data tree_type flattened;
      flatten_categories rest flattened
  end.

(** [_flatten_street_trees]; an empty dictionary is falsy and skips the
    loop. *)
Definition flatten_street_trees (street_trees : pydict) : result index :=
  match street_trees with
  | [] => Ok ∅
  | _ => flatten_categories street_trees ∅
  end.

Record PropertyValueStatistics : Type := {
  property_sales : list pyval;
  street_trees : index
}.

(** [__init__]; the logger it fetches is the external collaborator that
    receives the skipped records, see [skipped] below. *)
Definition new (sales : list pyval) (trees : pydict)
  : result PropertyValueStatistics :=
  flattened ← flatten_street_trees trees;
  Ok {| property_sales := sales; street_trees := flattened |}.

(** ** The operations used on a sale record *)

(** [key in container] for a string [key]: key membership in a
    dictionary, element equality in a list, substring test in a string,
    [TypeError] on the scalars. *)
Definition py_in (key : string) (container : pyval) : result bool :=
  match container with
  | PyDict d => Ok (bool_decide (is_Some (dict_get d key)))
  | PyList l =>
      Ok (existsb (fun v => match v with
                            | PyStr s => String.eqb s key
                            | _ => false
                            end) l)
  | PyStr s => Ok (Str.contains s key)
  | _ => Raise TypeError
  end.

(** [obj.get(key, default)]: only dictionaries have the method. *)
Definition py_get (obj : pyval) (key : string) (default : pyval)
  : result pyval :=
  match obj with
  | PyDict d => Ok (match dict_get d key with Some v => v | None => default end)
  | _ => Raise AttributeError
  end.

(** [obj.lower()]: only strings have the method. *)
Definition py_lower (obj : pyval) : result string :=
  match obj with
  | PyStr s => Ok (Str.lower s)
  | _ => Raise AttributeError
  end.

(** [str(n)] for an [int]: CPython refuses more than 4300 digits. *)
Definition str_int (n : Z) : result string :=
  if (4300 <? String.length (pretty (Z.abs n)))%nat then Raise ValueError
  else Ok (pretty n).

(** Lines 232-233, [float(str(value).replace(",", ""))].  The [repr] of a
    float has no comma and reads back as the same float; the [repr] of a
    list or a dictionary starts with a bracket and is no float literal. *)
Definition price_of (value : pyval) : result F64.float :=
  match value with
  | PyStr s => Parse.py_float (Str.remove_commas s)
  | PyInt n => s ← str_int n; Parse.py_float (Str.remove_commas s)
  | PyNone => Parse.py_float (Str.remove_commas "None")
  | PyBool true => Parse.py_float (Str.remove_commas "True")
  | PyBool false => Parse.py_float (Str.remove_commas "False")
  | PyFloat x => Ok x
  | PyList _ | PyDict _ => Raise ValueError
  end.

(** ** [_calculate_average_price] *)

(** The body of the [try] block, lines 225-247: the price to add when the
    street carries [tree_type], [None] when it does not. *)
Definition examine (trees : index) (tree_type : string) (property : pyval)
  : result (option F64.float) :=
  has_price ← py_in "Price" property;
  if negb has_price then Raise KeyError else
  has_street ← py_in "Street Name" property;
  if negb has_street then Raise KeyError else
  street ← py_get property "Street Name" (PyStr "");
  street_name ← py_lower street;
  price ← py_get property "Price" (PyStr "0");
  price ← price_of price;
  if String.eqb street_name "" then Raise ValueError else
  match trees !! street_name with
  | None => Raise KeyError
  | Some types =>
      Ok (if bool_decide (is_Some (types !! tree_type))
          then Some price else None)
  end.

(** [except (ValueError, KeyError, TypeError)] *)
Definition caught (e : exn) : bool :=
  match e with
  | ValueError | KeyError | TypeError => true
  | AttributeError | OverflowError => false
  end.

(** The state of the loop: the two accumulators and the records reported
    to the logger with their error.  [total_price] starts as the integer
    [0], which the first addition converts to the float [0.0]. *)
Record tally : Type := {
  total_price : F64.float;
  property_count : Z;
  skipped : list (pyval * exn)
}.

Definition start : tally :=
  {| total_price := F64.zero; property_count := 0; skipped := [] |}.

Definition count_in (price : F64.float) (t : tally) : tally :=
  {| total_price := F64.add (total_price t) price;
     property_count := property_count t + 1;
     skipped := skipped t |}.

Definition skip (property : pyval) (e : exn) (t : tally) : tally :=
  {| total_price := total_price t;
     property_count := property_count t;
     skipped := (skipped t ++ [(property, e)])%list |}.

(** One iteration of the loop. *)
Definition visit (trees : index) (tree_type : string) (property : pyval)
    (t : tally) : result tally :=
  match examine trees tree_type property with
  | Ok (Some price) => Ok (count_in price t)
  | Ok None => Ok t
  | Raise e => if caught e then Ok (skip property e t) else Raise e
  end.

Fixpoint scan (trees : index) (tree_type : string) (sales : list pyval)
    (t : tally) : result tally :=
  match sales with
  | [] => Ok t
  | property :: rest =>
      t ← visit trees tree_type property t;
      scan trees tree_type rest t
  end.

(** Lines 256-257; the division converts the count to a float. *)
Definition average_of (t : tally) : result F64.float :=
  average_price ←
    (if negb (property_count t =? 0) then
       count ← F64.of_int (property_count t);
       Ok (F64.div (total_price t) count)
     else Ok F64.zero);
  Ok (Round.py_round average_price 2).

Definition calculate_average_price
    (self : PropertyValueStatistics) (tree_type : string)
  : result F64.float :=
  t ← scan (street_trees self) tree_type (property_sales self) start;
  average_of t.

Definition calculate_average_price_tall_trees
    (self : PropertyValueStatistics) : result F64.float :=
  calculate_average_price self "tall".

Definition calculate_average_price_short_trees
    (self : PropertyValueStatistics) : result F64.float :=
  calculate_average_price self "short".

(** ** Rejected and counted records *)

(** The four ways a sale record (a dictionary whose street name, when
    present, is a string) is rejected. *)
Inductive rejected (trees : index) (d : pydict) : Prop :=
  | missing_field :
      dict_get d "Price" = None \/ dict_get d "Street Name" = None ->
      rejected trees d
  | blank_street_name (s : string) :
      dict_get d "Street Name" = Some (PyStr s) ->
      Str.lower s = "" ->
      rejected trees d
  | unparsable_price (s : string) (p : pyval) :
      dict_get d "Street Name" = Some (PyStr s) ->
      dict_get d "Price" = Some p ->
      price_of p = Raise ValueError ->
      rejected trees d
  | unknown_street (s : string) :
      dict_get d "Street Name" = Some (PyStr s) ->
      trees !! Str.lower s = None ->
      rejected trees d.

(** The price a record adds to the sum, when it is counted. *)
Definition counted (trees : index) (tree_type : string) (property : pyval)
  : option F64.float :=
  match examine trees tree_type property with
  | Ok (Some price) => Some price
  | _ => None
  end.

(** Two loop states with the same accumulators. *)
Definition same_sums (t1 t2 : tally) : Prop :=
  total_price t1 = total_price t2 /\ property_count t1 = property_count t2.

(** ** The reference data of the unit tests *)

Module Reference.

Definition sale (date address street price : string) : pyval :=
  PyDict [("Date of Sale (dd/mm/yyyy)", PyStr date);
          ("Address", PyStr address);
          ("Street Name", PyStr street);
          ("Price", PyStr price)].

Definition property_sales : list pyval :=
  [sale "01/01/2015" "APT 274, THE PARKLANDS, NORTHWOOD" "the park" "79500.00";
   sale "12/03/2017" "APT 15, WOODLANDS PARK, SOUTHWOOD" "cambridge road"
        "120000.00";
   sale "25/07/2020" "APT 35, GREENFIELDS, GREENTOWN" "ventry park"
        "150000.00"].

Definition street_trees : pydict :=
  [("short",
    PyDict [("the", PyDict [("the park", PyInt 10)]);
            ("ventry", PyDict [("ventry park", PyInt 0)]);
            ("tone", PyDict [("wolf", PyDict [("wolf tone park", PyInt 5)])])]);
   ("tall",
    PyDict [("road", PyDict [("cambridge", PyDict [("cambridge road", PyInt 20)])]);
            ("park", PyDict [("ventry", PyDict [("ventry park", PyInt 20)])])])].

(** The dictionary expected by [test_flatten_street_trees]. *)
Definition expected_index : index :=
  {[ "the park" := {[ "short" := true ]};
     "ventry park" := {[ "short" := true; "tall" := true ]};
     "wolf tone park" := {[ "short" := true ]};
     "cambridge road" := {[ "tall" := true ]} ]}.

End Reference.

(** * Leaves of a taxonomy

    The terminal entries met by the traversal, in its order: what the
    flattener can see of a taxonomy once the nesting is forgotten. *)

Fixpoint leaves_of (street_trees : pyval) : list (string * pyval) :=
  match street_trees with
  | PyDict items =>
      (fix each (items : pydict) : list (string * pyval) :=
         match items with
         | [] => []
         | (key, value) :: rest =>
             ((if is_dict value then leaves_of value else [(key, value)])
                ++ each rest)%list
         end) items
  | _ => []
  end.

Definition leaves (d : pydict) : list (string * pyval) := leaves_of (PyDict d).

(** The leaves of every category: (category, street, value). *)
Fixpoint category_leaves (street_trees : pydict)
  : list (string * string * pyval) :=
  match street_trees with
  | [] => []
  | (tree_type, nested_data) :: rest =>
      (map (fun kv => (tree_type, kv.1, kv.2)) (leaves_of nested_data)
         ++ category_leaves rest)%list
  end.

(** The (category, street) pairs the flattener records. *)
Definition marks (ls : list (string * string * pyval))
  : list (string * string) :=
  map (fun l => (l.1.1, l.1.2)) (filter (fun l => is_height l.2 = true) ls).

(** The (category, street) pairs recorded for one category. *)
Definition heights (tree_type : string) (d : pydict) : list (string * string) :=
  marks (map (fun kv => (tree_type, kv.1, kv.2)) (leaves d)).

Definition record_marks (ms : list (string * string)) (flattened : index)
  : index :=
  foldl (fun f m => record_street m.2 m.1 f) flattened ms.

(** The flag of [tree_type] on [street], as the aggregator reads it. *)
Definition flag (flattened : index) (street tree_type : string)
  : option bool :=
  flattened !! street ≫= (fun types => types !! tree_type).




(** Every top-level value is a dictionary: the shape the constructor
    expects of its [street_trees] argument. *)
Definition categories_are_dicts (street_trees : pydict) : Prop :=
  Forall (fun kv => is_dict kv.2 = true) street_trees.

(** * Induction on Python values

    The induction principle that reaches the values nested in lists and
    dictionaries. *)

Section pyval_induction.
Variable P : pyval -> Prop.
Hypothesis HNone : P PyNone.
Hypothesis HBool : forall b, P (PyBool b).
Hypothesis HInt : forall n, P (PyInt n).
Hypothesis HFloat : forall x, P (PyFloat x).
Hypothesis HStr : forall s, P (PyStr s).
Hypothesis HList : forall l, Forall P l -> P (PyList l).
Hypothesis HDict : forall d, Forall (fun kv => P kv.2) d -> P (PyDict d).

Fixpoint pyval_ind (v : pyval) : P v :=
  match v with
  | PyNone => HNone
  | PyBool b => HBool b
  | PyInt n => HInt n
  | PyFloat x => HFloat x
  | PyStr s => HStr s
  | PyList l =>
      HList l
        ((fix all (l : list pyval) : Forall P l :=
            match l with
            | [] => List.Forall_nil P
            | v :: l' => List.Forall_cons P v l' (pyval_ind v) (all l')
            end) l)
  | PyDict d =>
      HDict d
        ((fix all (d : pydict) : Forall (fun kv => P kv.2) d :=
            match d with
            | [] => List.Forall_nil _
            | kv :: d' => List.Forall_cons _ kv d' (pyval_ind kv.2) (all d')
            end) d)
  end.
End pyval_induction.

(** * Sample inputs *)

Module Samples.



(** The leaves of the reference taxonomy at other depths and in another
    order. *)
Definition flat_reference : pydict :=
  [("tall",
    PyDict [("ventry park", PyInt 20);
            ("by name", PyDict [("cambridge road", PyInt 20)])]);
   ("short",
    PyDict [("wolf tone park", PyInt 5);
            ("the park", PyInt 10);
            ("ventry park", PyInt 0)])].


(** The row [csv.DictReader] builds from a line with two fields only:
    the missing columns are filled with [None]. *)
Definition short_row : pyval :=
  PyDict [("Date of Sale (dd/mm/yyyy)", PyStr "01/01/2015");
          ("Address", PyStr "APT 274, THE PARKLANDS, NORTHWOOD");
          ("Street Name", PyNone);
          ("Price", PyNone)].

(** A record that is a list naming both fields. *)
Definition list_row : pyval :=
  PyList [PyStr "Street Name"; PyStr "Price"].

Definition street_and_price (street price : string) : pydict :=
  [("Street Name", PyStr street); ("Price", PyStr price)].

Definition reference : PropertyValueStatistics :=
  {| property_sales := Reference.property_sales;
     street_trees := Reference.expected_index |}.

Definition booleans : pydict :=
  [("tall", PyDict [("road", PyDict [("abbey road", PyBool true)]);
                    ("lane", PyDict [("mill lane", PyBool false)])])].

Definition booleans_index : index :=
  {[ "abbey road" := {[ "tall" := true ]};
     "mill lane" := {[ "tall" := true ]} ]}.


(** A sale at a negative price on a street with tall trees. *)
Definition refund : PropertyValueStatistics :=
  {| property_sales :=
       [PyDict (street_and_price "cambridge road" "-120,000.00")];
     street_trees := Reference.expected_index |}.

(** A sale whose price is an [int] of 4301 digits. *)
Definition long_number : Z := 10 ^ 4300.

Definition long_price : pyval :=
  PyDict [("Street Name", PyStr "the park"); ("Price", PyInt long_number)].

(** The two categories of the reference taxonomy, apart. *)
Definition short_only : pydict := take 1 Reference.street_trees.
Definition tall_only : pydict := drop 1 Reference.street_trees.

End Samples.

(** * The collaborators: configuration, logger, parsers, entry point

    [utils/config.py], [utils/logger.py], [file_parsers.py] and [main.py].
    What lies outside the program (the content of the three files, the
    set-up of the logging handlers) is a [world]: for each file, the
    outcome of opening and decoding it.  The files do not change while
    the program runs, so that reading one twice gives the same outcome.

    Left out of the values: the dates and times of a TOML document, and
    the [None] key under which [csv.DictReader] collects the fields of a
    row that is longer than the header (none of the look-ups of the
    program is by that key). *)

Module Sys.

(** The exception classes met around the file operations, with the
    builtin classes of the core among them. *)
Inductive exc : Type :=
  | Builtin (e : Py.exn)
  | FileNotFoundError
  | OtherOSError
  | JSONDecodeError
  | UnicodeDecodeError
  | TOMLDecodeError
  | CsvError.

Inductive outcome (A : Type) : Type :=
  | Return (a : A)
  | Raised (e : exc).

Arguments Return {A} a.
Arguments Raised {A} e.

Definition and_then {A B : Type} (r : outcome A) (k : A -> outcome B)
  : outcome B :=
  match r with
  | Return a => k a
  | Raised e => Raised e
  end.

(** An exception of the core, seen from outside. *)
Definition lift {A : Type} (r : result A) : outcome A :=
  match r with
  | Ok a => Return a
  | Raise e => Raised (Builtin e)
  end.

(** [isinstance(e, ValueError)]: the decoding errors are subclasses. *)
Definition is_value_error (e : exc) : bool :=
  match e with
  | Builtin ValueError | JSONDecodeError | UnicodeDecodeError
  | TOMLDecodeError => true
  | _ => false
  end.

Definition is_file_not_found (e : exc) : bool :=
  match e with FileNotFoundError => true | _ => false end.

Definition is_csv_error (e : exc) : bool :=
  match e with CsvError => true | _ => false end.

Definition is_json_decode_error (e : exc) : bool :=
  match e with JSONDecodeError => true | _ => false end.

Definition is_key_error (e : exc) : bool :=
  match e with Builtin KeyError => true | _ => false end.

End Sys.

Import Sys.

#[global] Instance outcome_bind : MBind outcome :=
  fun A B k r => and_then r k.

(** [bool(value)] *)
Definition truthy (value : pyval) : bool :=
  match value with
  | PyNone => false
  | PyBool b => b
  | PyInt n => negb (n =? 0)
  | PyFloat (S754_zero _) => false
  | PyFloat _ => true
  | PyStr s => negb (String.eqb s "")
  | PyList l => match l with [] => false | _ => true end
  | PyDict d => match d with [] => false | _ => true end
  end.

(** ** [file_parsers.py] *)

Module Parsers.

(** [CSVParser.extract]; [rows] is the outcome of opening the file and
    reading every row of its [csv.DictReader]. *)
Definition CSVParser_extract (rows : outcome (list pyval))
  : outcome (list pyval) :=
  match rows with
  | Return data => Return data
  | Raised e =>
      if is_file_not_found e then Raised FileNotFoundError
      else if is_csv_error e then Raised CsvError
      else Raised e
  end.

(** [JSONParser.extract]; [loaded] is the outcome of opening the file and
    of [json.load]. *)
Definition JSONParser_extract (loaded : outcome pyval) : outcome pyval :=
  let body :=
    data ← loaded;
    if negb (truthy data) then Raised (Builtin ValueError)
    else Return data in
  match body with
  | Return data => Return data
  | Raised e =>
      if is_file_not_found e then Raised FileNotFoundError
      else if is_value_error e then Raised (Builtin ValueError)
      else if is_json_decode_error e then Raised (Builtin ValueError)
      else Raised e
  end.

(** [TOMLParser.extract]; [loaded] is the outcome of opening the file and
    of [tomllib.load].  The [except] clause names
    [tomllib.TomlDecodeError], an attribute the module does not have (its
    class is [TOMLDecodeError]): when an exception reaches the clause,
    evaluating the name raises [AttributeError] in its place. *)
Definition TOMLParser_extract (file_exists : bool) (loaded : outcome pydict)
  : outcome pydict :=
  if file_exists then
    let body :=
      data ← loaded;
      match data with
      | [] => Raised (Builtin ValueError)
      | _ => Return data
      end in
    match body with
    | Return data => Return data
    | Raised _ => Raised (Builtin AttributeError)
    end
  else Raised FileNotFoundError.

End Parsers.

(** What the program finds outside itself. *)
Record world : Type := {
  property_csv : outcome (list pyval);
  trees_json : outcome pyval;
  config_exists : bool;
  config_toml : outcome pydict;
  logging_setup : outcome unit
}.

(** ** [utils/config.py] *)

Module Config.

Definition is_dot (c : ascii) : bool := Ascii.eqb c ".".

(** [name.rstrip(".")] *)
Fixpoint rstrip_dots (name : string) : string :=
  match name with
  | EmptyString => EmptyString
  | String c rest =>
      let rest := rstrip_dots rest in
      if is_dot c && String.eqb rest "" then EmptyString else String c rest
  end.

(** [name.split(".")] *)
Fixpoint split_dots (name : string) : list string :=
  match name with
  | EmptyString => [EmptyString]
  | String c rest =>
      if is_dot c then EmptyString :: split_dots rest
      else
        match split_dots rest with
        | word :: words => String c word :: words
        | [] => [String c EmptyString]
        end
  end.

(** [_name_to_list] *)
Definition name_to_list (name : string) : result (list string) :=
  if String.eqb name "" then Raise ValueError
  else
    let words := split_dots (rstrip_dots name) in
    match words with
    | [] => Raise ValueError
    | _ => Ok words
    end.

(** [_load_config]: the TOML parser on [config.toml]. *)
Definition load_config (w : world) : outcome pydict :=
  Parsers.TOMLParser_extract (config_exists w) (config_toml w).

(** [config[word]] for a string [word]: a dictionary looks the key up,
    every other value refuses the string as an index. *)
Definition subscript (config : pyval) (word : string) : result pyval :=
  match config with
  | PyDict d =>
      match dict_get d word with
      | Some value => Ok value
      | None => Raise KeyError
      end
  | _ => Raise TypeError
  end.

(** The loop of [get_value]. *)
Fixpoint descend (config : pyval) (words : list string) : result pyval :=
  match words with
  | [] => Ok config
  | word :: rest =>
      config ← subscript config word;
      descend config rest
  end.

(** [get_value]: the [KeyError] of the loop is raised again as a
    [KeyError]; nothing else is caught. *)
Definition get_value (w : world) (key_name : string) : outcome pyval :=
  words ← lift (name_to_list key_name);
  config ← load_config w;
  config ←
    match lift (descend (PyDict config) words) with
    | Return config => Return config
    | Raised e => if is_key_error e then Raised (Builtin KeyError) else Raised e
    end;
  if negb (is_dict config) then Return config
  else Raised (Builtin ValueError).

End Config.

(** ** [utils/logger.py] *)

Module Logger.

(** The level names of the [logging] module. *)
Definition level_names : list (string * Z) :=
  [("CRITICAL", 50); ("FATAL", 50); ("ERROR", 40); ("WARN", 30);
   ("WARNING", 30); ("INFO", 20); ("DEBUG", 10); ("NOTSET", 0)].

Fixpoint level_named (names : list (string * Z)) (name : string) : option Z :=
  match names with
  | [] => None
  | (n, l) :: rest => if String.eqb n name then Some l else level_named rest name
  end.

(** [logger.setLevel(level)]: an [int] is taken as it is, a string has to
    be a level name, anything else is a [TypeError]. *)
Definition set_level (level : pyval) : result Z :=
  match level with
  | PyInt n => Ok n
  | PyBool b => Ok (if b then 1 else 0)
  | PyStr name =>
      match level_named level_names name with
      | Some l => Ok l
      | None => Raise ValueError
      end
  | _ => Raise TypeError
  end.

(** [get_logger]; the logger is represented by the level it is given.
    [except KeyError or ValueError] is [except KeyError]: the operand of
    [except] is the value of [KeyError or ValueError], the first class. *)
Definition get_logger (w : world) : outcome Z :=
  _ ← logging_setup w;
  log_level ←
    match Config.get_value w "logging.level" with
    | Return level => Return level
    | Raised e => if is_key_error e then Return (PyStr "INFO") else Raised e
    end;
  lift (set_level log_level).

End Logger.

(** ** The message of a skipped record

    The [except] block of the loop writes the record into its message
    (lines 249-254, an f-string with [property] in it), and CPython
    refuses to print an [int] of more than 4300 digits: on a record that
    holds one, the block raises [ValueError] itself, and that exception
    leaves the method.  The loop [scan] of the class model leaves the
    message out; the loop below builds it. *)

(** [repr(value)] returns. *)
Fixpoint printable (value : pyval) : bool :=
  match value with
  | PyInt n => negb (4300 <? String.length (pretty (Z.abs n)))%nat
  | PyList l =>
      (fix all (l : list pyval) : bool :=
         match l with
         | [] => true
         | v :: rest => printable v && all rest
         end) l
  | PyDict d =>
      (fix all (d : pydict) : bool :=
         match d with
         | [] => true
         | (_, v) :: rest => printable v && all rest
         end) d
  | _ => true
  end.

Module Reporting.

(** One iteration of the loop, the message of the [except] block
    included. *)
Definition visit (trees : index) (tree_type : string) (property : pyval)
    (t : tally) : result tally :=
  match examine trees tree_type property with
  | Ok (Some price) => Ok (count_in price t)
  | Ok None => Ok t
  | Raise e =>
      if caught e then
        if printable property then Ok (skip property e t)
        else Raise ValueError
      else Raise e
  end.

Fixpoint scan (trees : index) (tree_type : string) (sales : list pyval)
    (t : tally) : result tally :=
  match sales with
  | [] => Ok t
  | property :: rest =>
      t ← visit trees tree_type property t;
      scan trees tree_type rest t
  end.

Definition calculate_average_price
    (self : PropertyValueStatistics) (tree_type : string)
  : result F64.float :=
  t ← scan (street_trees self) tree_type (property_sales self) start;
  average_of t.

Definition calculate_average_price_tall_trees
    (self : PropertyValueStatistics) : result F64.float :=
  calculate_average_price self "tall".

Definition calculate_average_price_short_trees
    (self : PropertyValueStatistics) : result F64.float :=
  calculate_average_price self "short".

End Reporting.

(** ** The constructor with its logger, and [main.py] *)

(** [_flatten_street_trees] on an argument of any type: a falsy argument
    skips the loop, and only a dictionary has [items]. *)
Definition flatten_any (street_trees : pyval) : result index :=
  match street_trees with
  | PyDict d => flatten_street_trees d
  | _ => if truthy street_trees then Raise AttributeError else Ok ∅
  end.

(** [PropertyValueStatistics.__init__], the logger included: the taxonomy
    is flattened first, then the logger is fetched. *)
Definition construct (w : world) (sales : list pyval) (trees : pyval)
  : outcome (PropertyValueStatistics * Z) :=
  flattened ← lift (flatten_any trees);
  logger ← Logger.get_logger w;
  Return ({| property_sales := sales; street_trees := flattened |}, logger).

Module Application.

(** The calls [run] makes on its own logger. *)
Inductive event : Type :=
  | Critical_csv
  | Critical_json
  | Info_tall (average : F64.float)
  | Info_short (average : F64.float).

(** How [run] ends: it returns, or [exit(code)] raises
    [SystemExit(code)], or an exception leaves it. *)
Inductive ending : Type :=
  | Returns
  | Exits (code : Z)
  | Fails (e : exc).

(** [Application.run]: the calls on the logger, in order, and how the
    method ends.  [except FileNotFoundError or ValueError] is
    [except FileNotFoundError]. *)
Definition run (w : world) : list event * ending :=
  match Parsers.CSVParser_extract (property_csv w) with
  | Raised e =>
      if is_file_not_found e then ([Critical_csv], Exits 100)
      else ([], Fails e)
  | Return property_sales =>
      match Parsers.JSONParser_extract (trees_json w) with
      | Raised e =>
          if is_file_not_found e then ([Critical_json], Exits 101)
          else ([], Fails e)
      | Return street_trees =>
          match construct w property_sales street_trees with
          | Raised e => ([], Fails e)
          | Return (stats, _) =>
              match Reporting.calculate_average_price_tall_trees stats with
              | Raise e => ([], Fails (Builtin e))
              | Ok tall =>
                  match Reporting.calculate_average_price_short_trees stats with
                  | Raise e => ([Info_tall tall], Fails (Builtin e))
                  | Ok short => ([Info_tall tall; Info_short short], Returns)
                  end
              end
          end
      end
  end.

(** [Application.__init__]: the two paths and the logger. *)
Definition init (w : world) : outcome Z := Logger.get_logger w.

(** [Application().run()], the last line of the script. *)
Definition main (w : world) : list event * ending :=
  match init w with
  | Raised e => ([], Fails e)
  | Return _ => run w
  end.

End Application.

(** ** Auxiliary notions for the properties of the core *)

(** The records that raise the exception the loop does not catch. *)
Definition escapes (property : pyval) : bool :=
  match property with
  | PyDict d =>
      match dict_get d "Price", dict_get d "Street Name" with
      | Some _, Some (PyStr _) => false
      | Some _, Some _ => true
      | _, _ => false
      end
  | PyList _ | PyStr _ =>
      match py_in "Price" property, py_in "Street Name" property with
      | Ok true, Ok true => true
      | _, _ => false
      end
  | _ => false
  end.

(** The exception with which a record ends the loop, if it does: one
    that the [except] clause does not list, or the [ValueError] of the
    message of a record that cannot be printed. *)
Definition halts (trees : index) (tree_type : string) (property : pyval)
  : option exn :=
  match examine trees tree_type property with
  | Ok _ => None
  | Raise e =>
      if caught e then
        if printable property then None else Some ValueError
      else Some e
  end.

(** The records the loop logs, with the exception of each. *)
Definition logged (trees : index) (tree_type : string) (property : pyval)
  : option (pyval * exn) :=
  match examine trees tree_type property with
  | Raise e => if caught e then Some (property, e) else None
  | Ok _ => None
  end.

(** The records of a street that does not carry the category. *)
Definition passed_over (trees : index) (tree_type : string) (property : pyval)
  : bool :=
  match examine trees tree_type property with
  | Ok None => true
  | _ => false
  end.

(** A well-formed index: every street has at least one flag, and every
    flag is [True]. *)
Definition flags_set (flattened : index) : Prop :=
  forall street types,
    flattened !! street = Some types ->
    types <> ∅ /\ forall tree_type b, types !! tree_type = Some b -> b = true.

(** The prices the loop adds and the records it logs, in list order. *)
Definition counted_prices (trees : index) (tree_type : string)
    (sales : list pyval) : list F64.float :=
  omap (counted trees tree_type) sales.

Definition logged_records (trees : index) (tree_type : string)
    (sales : list pyval) : list (pyval * exn) :=
  omap (logged trees tree_type) sales.

(** Strings with a period, and strings of periods only. *)
Fixpoint has_dot (s : string) : bool :=
  match s with
  | EmptyString => false
  | String c rest => Config.is_dot c || has_dot rest
  end.

Fixpoint all_dots (s : string) : bool :=
  match s with
  | EmptyString => true
  | String c rest => Config.is_dot c && all_dots rest
  end.

(** Worlds for the examples. *)
Module Worlds.

Definition settings : pydict :=
  [("logging", PyDict [("level", PyStr "DEBUG"); ("file", PyStr "app.log")]);
   ("name", PyStr "property-value-analysis")].

(** The files of the repository in place, with the reference data. *)
Definition complete : world :=
  {| property_csv := Return Reference.property_sales;
     trees_json := Return (PyDict Reference.street_trees);
     config_exists := true;
     config_toml := Return settings;
     logging_setup := Return tt |}.

(** The same with another configuration file. *)
Definition configured (config : pydict) : world :=
  {| property_csv := Return Reference.property_sales;
     trees_json := Return (PyDict Reference.street_trees);
     config_exists := true;
     config_toml := Return config;
     logging_setup := Return tt |}.

(** The same without [config.toml]. *)
Definition unconfigured : world :=
  {| property_csv := Return Reference.property_sales;
     trees_json := Return (PyDict Reference.street_trees);
     config_exists := false;
     config_toml := Raised FileNotFoundError;
     logging_setup := Return tt |}.

(** The configuration in place, and the two data files as given. *)
Definition reading (csv : outcome (list pyval)) (json : outcome pyval)
  : world :=
  {| property_csv := csv;
     trees_json := json;
     config_exists := true;
     config_toml := Return settings;
     logging_setup := Return tt |}.

End Worlds.

(** * Checks of the library models *)

Example of_Z_135000 :
  F64.of_Z 135000 = S754_finite false 4638564679680000 (-35).
Proof. vm_compute. reflexivity. Qed.

Example tenth :
  F64.of_decimal false 1 (-1) = S754_finite false 7205759403792794 (-56).
Proof. vm_compute. reflexivity. Qed.

Example float_plain : Parse.py_float "79500.00" = Ok (F64.of_Z 79500).
Proof. vm_compute. reflexivity. Qed.

Example float_forms :
  Parse.py_float " 1_0.5e1 " = Ok (F64.of_Z 105) /\
  Parse.py_float "-Infinity" = Ok (S754_infinity true) /\
  Parse.py_float "None" = Raise ValueError /\
  Parse.py_float "1e" = Raise ValueError /\
  Parse.py_float "." = Raise ValueError /\
  Parse.py_float "" = Raise ValueError /\
  Parse.py_float "1__0" = Raise ValueError /\
  Parse.py_float ".5" = Ok (F64.of_decimal false 5 (-1)).
Proof. vm_compute. repeat split. Qed.

Example round_examples :
  Round.py_round (F64.of_decimal false 125 (-3)) 2 = F64.of_decimal false 12 (-2) /\
  Round.py_round (F64.of_decimal false 375 (-3)) 2 = F64.of_decimal false 38 (-2) /\
  Round.py_round (F64.of_decimal false 2675 (-3)) 2 = F64.of_decimal false 267 (-2) /\
  Round.py_round (F64.of_decimal true 1 (-3)) 2 = S754_zero true /\
  Round.py_round (F64.of_Z 135000) 2 = F64.of_Z 135000.
Proof. vm_compute. repeat split. Qed.

Example reference_flatten :
  flatten_street_trees Reference.street_trees = Ok Reference.expected_index.
Proof. vm_cast_no_check (@eq_refl _ (Ok Reference.expected_index)). Qed.

Example of_int_limits :
  F64.of_int (2 ^ 1024 - 2 ^ 970) = Raise OverflowError /\
  F64.of_int (2 ^ 1024 - 2 ^ 970 - 1)
    = Ok (S754_finite false (2 ^ 53 - 1) 971) /\
  F64.of_int (2 ^ 53 + 1) = Ok (S754_finite false (2 ^ 52) 1) /\
  F64.of_int (2 ^ 53 + 3) = Ok (S754_finite false (2 ^ 52 + 2) 1).
Proof. vm_compute. repeat split. Qed.

Example float_limits :
  Parse.py_float "1e999" = Ok (S754_infinity false) /\
  Parse.py_float "1e-999" = Ok (S754_zero false) /\
  Parse.py_float "4.9e-324" = Ok (S754_finite false 1 (-1074)) /\
  Parse.py_float "1.7976931348623157e308"
    = Ok (S754_finite false (2 ^ 53 - 1) 971) /\
  Parse.py_float "-0" = Ok (S754_zero true) /\
  Parse.py_float "0x10" = Raise ValueError /\
  Parse.py_float "1_.5" = Raise ValueError /\
  Parse.py_float "1e1_0" = Ok (F64.of_Z (10 ^ 10)).
Proof. vm_compute. repeat split. Qed.

Example str_int_examples :
  str_int 120000 = Ok "120000" /\ str_int (-7) = Ok "-7" /\ str_int 0 = Ok "0".
Proof. vm_compute. repeat split. Qed.

(** Membership in a list that is written out. *)
Ltac in_list :=
  vm_compute;
  repeat first [apply list_elem_of_here | apply list_elem_of_further].

(** * Induction on dictionaries

    Induction on a dictionary that also descends into nested ones. *)
Lemma pydict_ind (P : pydict -> Prop) :
  P [] ->
  (forall k v rest, is_dict v = false -> P rest -> P ((k, v) :: rest)) ->
  (forall k d rest, P d -> P rest -> P ((k, PyDict d) :: rest)) ->
  forall d, P d.
Proof.
  intros Hnil Hleaf Hsub d.
  assert (H : forall v, match v with PyDict d => P d | _ => True end).
  { induction v as [| | | | | |d' IH] using pyval_ind; try exact I.
    induction d' as [|[k v] rest IHrest]; [exact Hnil|].
    inversion IH as [|? ? Hv Hrest]; subst. simpl in Hv.
    destruct v; try (apply Hleaf; [reflexivity|auto]).
    apply Hsub; auto. }
  exact (H (PyDict d)).
Qed.

(** * Flattening: what the traversal computes *)

Section flattening.

Implicit Types (f g : index) (d rest : pydict) (k c : string).
Implicit Types (ms : list (string * string)).

Lemma record_street_insert k c f :
  record_street k c f = <[k := <[c := true]> (default ∅ (f !! k))]> f.
Proof.
  unfold record_street. destruct (f !! k) as [types|] eqn:E.
  - now rewrite E.
  - rewrite lookup_insert_eq. simpl. now rewrite insert_insert_eq.
Qed.

Lemma record_street_lookup k c f k' :
  record_street k c f !! k' =
  if decide (k = k') then Some (<[c := true]> (default ∅ (f !! k)))
  else f !! k'.
Proof. rewrite record_street_insert. apply lookup_insert. Qed.

Lemma record_street_is_Some k c f k' :
  is_Some (record_street k c f !! k') <-> k = k' \/ is_Some (f !! k').
Proof.
  rewrite record_street_lookup. destruct (decide (k = k')) as [->|Hne].
  - split; [now left | intros _; eauto].
  - split; [now right | intros [?|?]; [contradiction|assumption]].
Qed.

Lemma flag_record_street k c f k' c' :
  flag (record_street k c f) k' c' =
  if decide (k = k' /\ c = c') then Some true else flag f k' c'.
Proof.
  unfold flag. rewrite record_street_lookup.
  destruct (decide (k = k')) as [->|Hk]; simpl.
  - rewrite lookup_insert. destruct (decide (c = c')) as [->|Hc].
    + rewrite decide_True by auto. reflexivity.
    + rewrite decide_False by (intros [_ ?]; contradiction).
      destruct (f !! k'); simpl; [reflexivity | apply lookup_empty].
  - rewrite decide_False by (intros [? _]; contradiction). reflexivity.
Qed.

Lemma record_marks_cons m ms f :
  record_marks (m :: ms) f = record_marks ms (record_street m.2 m.1 f).
Proof. reflexivity. Qed.

Lemma record_marks_app ms1 ms2 f :
  record_marks (ms1 ++ ms2) f = record_marks ms2 (record_marks ms1 f).
Proof. apply foldl_app. Qed.

Lemma flag_record_marks ms f k c :
  flag (record_marks ms f) k c =
  if decide ((c, k) ∈ ms) then Some true else flag f k c.
Proof.
  revert f. induction ms as [|[c0 k0] ms IH]; intros f.
  - rewrite decide_False by apply not_elem_of_nil. reflexivity.
  - rewrite record_marks_cons, IH, flag_record_street. simpl.
    destruct (decide ((c, k) ∈ ms)) as [Hin|Hin].
    + rewrite decide_True by now right. reflexivity.
    + destruct (decide (k0 = k /\ c0 = c)) as [[-> ->]|Hne].
      * rewrite decide_True by now left. reflexivity.
      * rewrite decide_False; [reflexivity|].
        intros [Heq|?]%elem_of_cons; [|contradiction].
        injection Heq as -> ->. now apply Hne.
Qed.

Lemma record_marks_is_Some ms f k :
  is_Some (record_marks ms f !! k) <->
  is_Some (f !! k) \/ exists c, (c, k) ∈ ms.
Proof.
  revert f. induction ms as [|[c0 k0] ms IH]; intros f.
  - split; [now left|]. intros [?|[c Hc]]; [assumption|].
    now apply not_elem_of_nil in Hc.
  - rewrite record_marks_cons, IH, record_street_is_Some. simpl. split.
    + intros [[->|?]|[c Hc]].
      * right. exists c0. now left.
      * now left.
      * right. exists c. now right.
    + intros [?|[c [Heq|Hc]%elem_of_cons]].
      * left. now right.
      * injection Heq as -> ->. left. now left.
      * right. now exists c.
Qed.

(** Two indexes with the same streets and the same flags are equal. *)
Lemma index_eq f g :
  (forall k, is_Some (f !! k) <-> is_Some (g !! k)) ->
  (forall k c, flag f k c = flag g k c) ->
  f = g.
Proof.
  intros Hdom Hflag. apply map_eq. intros k.
  specialize (Hdom k). pose proof (Hflag k) as Hk. unfold flag in Hk.
  destruct (f !! k) as [tf|], (g !! k) as [tg|]; simpl in Hk.
  - f_equal. apply map_eq. exact Hk.
  - destruct Hdom as [H _]. destruct H as [? H]; [eauto|discriminate].
  - destruct Hdom as [_ H]. destruct H as [? H]; [eauto|discriminate].
  - reflexivity.
Qed.

(** The index depends on the set of recorded pairs only. *)
Lemma record_marks_ext ms1 ms2 f :
  (forall m, m ∈ ms1 <-> m ∈ ms2) ->
  record_marks ms1 f = record_marks ms2 f.
Proof.
  intros Hsame. apply index_eq.
  - intros k. rewrite !record_marks_is_Some.
    split; (intros [?|[c Hc]]; [now left|right; exists c; now apply Hsame]).
  - intros k c. rewrite !flag_record_marks.
    destruct (decide ((c, k) ∈ ms1)) as [H1|H1].
    + rewrite decide_True by now apply Hsame. reflexivity.
    + rewrite decide_False; [reflexivity|]. intros H2. now apply H1, Hsame.
Qed.

Lemma leaves_cons_dict k d rest :
  leaves ((k, PyDict d) :: rest) = (leaves d ++ leaves rest)%list.
Proof. reflexivity. Qed.

Lemma leaves_cons_leaf k v rest :
  is_dict v = false -> leaves ((k, v) :: rest) = (k, v) :: leaves rest.
Proof. intros H. unfold leaves. simpl. now rewrite H. Qed.

Lemma marks_app ls1 ls2 :
  marks (ls1 ++ ls2) = (marks ls1 ++ marks ls2)%list.
Proof. unfold marks. now rewrite filter_app, map_app. Qed.

Lemma flatten_cons k v rest c f :
  flatten_street_tree_type (PyDict ((k, v) :: rest)) c f =
  if is_dict v then
    f' ← flatten_street_tree_type v c f;
    flatten_street_tree_type (PyDict rest) c f'
  else if is_height v then
    flatten_street_tree_type (PyDict rest) c (record_street k c f)
  else flatten_street_tree_type (PyDict rest) c f.
Proof. reflexivity. Qed.

(** On a dictionary the traversal never fails, and it records the valid
    leaves in the order it meets them. *)
Lemma flatten_dict d c f :
  flatten_street_tree_type (PyDict d) c f = Ok (record_marks (heights c d) f).
Proof.
  revert f. induction d as [|k v rest Hv IH|k d' rest IHd IH] using pydict_ind;
    intros f.
  - reflexivity.
  - rewrite flatten_cons, Hv.
    assert (Hm : heights c ((k, v) :: rest) =
                 if is_height v then (c, k) :: heights c rest
                 else heights c rest).
    { unfold heights, marks. rewrite leaves_cons_leaf by done.
      rewrite fmap_cons, filter_cons. cbn [fst snd].
      destruct (is_height v).
      - now rewrite decide_True by done.
      - now rewrite decide_False by done. }
    rewrite Hm. destruct (is_height v); now rewrite IH.
  - rewrite flatten_cons. cbn [is_dict]. rewrite IHd.
    change (flatten_street_tree_type (PyDict rest) c
              (record_marks (heights c d') f) =
            Ok (record_marks (heights c ((k, PyDict d') :: rest)) f)).
    rewrite IH. unfold heights.
    now rewrite leaves_cons_dict, map_app, marks_app, record_marks_app.
Qed.

Lemma flatten_not_dict v c f :
  is_dict v = false -> flatten_street_tree_type v c f = Raise AttributeError.
Proof. now destruct v. Qed.

Lemma flatten_categories_cons c v t f :
  flatten_categories ((c, v) :: t) f =
  f' ← flatten_street_tree_type v c f; flatten_categories t f'.
Proof. reflexivity. Qed.

Lemma flatten_categories_ok t f :
  categories_are_dicts t ->
  flatten_categories t f = Ok (record_marks (marks (category_leaves t)) f).
Proof.
  intros Ht. revert f. induction Ht as [|[c v] t Hv Ht IH]; intros f.
  - reflexivity.
  - simpl in Hv. destruct v; try discriminate.
    rewrite flatten_categories_cons, flatten_dict.
    change (flatten_categories t (record_marks (heights c d) f) =
            Ok (record_marks (marks (category_leaves ((c, PyDict d) :: t))) f)).
    rewrite IH. cbn [category_leaves].
    now rewrite marks_app, record_marks_app.
Qed.

Lemma flatten_categories_raise t f :
  ~ categories_are_dicts t ->
  flatten_categories t f = Raise AttributeError.
Proof.
  revert f. induction t as [|[c v] t IH]; intros f Hn.
  - exfalso. apply Hn. constructor.
  - rewrite flatten_categories_cons. destruct (is_dict v) eqn:Hv.
    + destruct v; try discriminate. rewrite flatten_dict.
      apply (IH (record_marks (heights c d) f)).
      intros Ht. apply Hn. now constructor.
    + now rewrite flatten_not_dict.
Qed.

Lemma flatten_street_trees_ok t :
  categories_are_dicts t ->
  flatten_street_trees t = Ok (record_marks (marks (category_leaves t)) ∅).
Proof.
  intros Ht. destruct t; [reflexivity|]. now apply flatten_categories_ok.
Qed.

Lemma flatten_street_trees_raise t :
  ~ categories_are_dicts t ->
  flatten_street_trees t = Raise AttributeError.
Proof.
  intros Hn. destruct t.
  - exfalso. apply Hn. constructor.
  - now apply flatten_categories_raise.
Qed.

Lemma flatten_street_trees_Ok t flattened :
  flatten_street_trees t = Ok flattened ->
  categories_are_dicts t /\
  flattened = record_marks (marks (category_leaves t)) ∅.
Proof.
  intros H. destruct (decide (categories_are_dicts t)) as [Ht|Ht].
  - split; [assumption|]. rewrite flatten_street_trees_ok in H by assumption.
    now injection H.
  - rewrite flatten_street_trees_raise in H by assumption. discriminate.
Qed.

Lemma elem_of_marks ls c k :
  (c, k) ∈ marks ls <-> exists v, (c, k, v) ∈ ls /\ is_height v = true.
Proof.
  unfold marks. rewrite list_elem_of_fmap. split.
  - intros [[[c' k'] v] [Heq [Hh Hin]%list_elem_of_filter]].
    simpl in *. injection Heq as -> ->. now exists v.
  - intros [v [Hin Hh]]. exists (c, k, v). split; [reflexivity|].
    now apply list_elem_of_filter.
Qed.

(** The flags of a flattened taxonomy are its valid leaves. *)
Lemma flattened_flag t flattened k c :
  flatten_street_trees t = Ok flattened ->
  flag flattened k c = Some true <->
  exists v, (c, k, v) ∈ category_leaves t /\ is_height v = true.
Proof.
  intros [_ ->]%flatten_street_trees_Ok.
  rewrite flag_record_marks, <- elem_of_marks.
  destruct (decide ((c, k) ∈ marks (category_leaves t))); [tauto|].
  unfold flag. rewrite lookup_empty. simpl. split; [discriminate|tauto].
Qed.


Lemma flag_lookup flattened k c b :
  flag flattened k c = Some b <->
  exists types, flattened !! k = Some types /\ types !! c = Some b.
Proof.
  unfold flag. destruct (flattened !! k) as [types|]; simpl.
  - split; [eauto|]. now intros [? [[= <-] ?]].
  - split; [discriminate|]. now intros [? [? ?]].
Qed.






Lemma record_marks_idem ms f :
  record_marks ms (record_marks ms f) = record_marks ms f.
Proof.
  apply index_eq.
  - intros k. rewrite !record_marks_is_Some. tauto.
  - intros k c. rewrite !flag_record_marks.
    now destruct (decide ((c, k) ∈ ms)).
Qed.

(** Recording a pair that is already flagged changes nothing. *)
Lemma record_street_again k c f :
  flag f k c = Some true -> record_street k c f = f.
Proof.
  intros (types & Hk & Hc)%flag_lookup.
  rewrite record_street_insert, Hk. simpl.
  rewrite (insert_id types c true Hc). now apply insert_id.
Qed.

(** A flag that is set stays set. *)
Lemma record_street_keeps k c f k0 c0 :
  flag f k0 c0 = Some true -> flag (record_street k c f) k0 c0 = Some true.
Proof.
  intros H. rewrite flag_record_street.
  now destruct (decide (k = k0 /\ c = c0)).
Qed.

Lemma flatten_keeps v c f f' k0 c0 :
  flatten_street_tree_type v c f = Ok f' ->
  flag f k0 c0 = Some true -> flag f' k0 c0 = Some true.
Proof.
  destruct v; try discriminate. rewrite flatten_dict. intros [= <-] H.
  rewrite flag_record_marks. now destruct (decide ((c0, k0) ∈ heights c d)).
Qed.

Lemma elem_of_category_leaves t l :
  l ∈ category_leaves t <->
  exists c v kv, (c, v) ∈ t /\ kv ∈ leaves_of v /\ l = (c, kv.1, kv.2).
Proof.
  induction t as [|[c v] t IH]; cbn [category_leaves].
  - split; [intros H; now apply not_elem_of_nil in H|].
    intros (? & ? & ? & H & _). now apply not_elem_of_nil in H.
  - rewrite elem_of_app, IH, list_elem_of_fmap. split.
    + intros [(kv & -> & Hkv)|(c' & v' & kv & Hin & Hkv & ->)].
      * exists c, v, kv. split; [now left|done].
      * exists c', v', kv. split; [now right|done].
    + intros (c' & v' & kv & [[= -> ->]|Hin]%elem_of_cons & Hkv & ->).
      * left. now exists kv.
      * right. now exists c', v', kv.
Qed.

Lemma category_leaves_perm t t' l :
  t ≡ₚ t' -> l ∈ category_leaves t <-> l ∈ category_leaves t'.
Proof.
  intros Hp. rewrite !elem_of_category_leaves.
  split; intros (c & v & kv & Hin & H); exists c, v, kv;
    (split; [|exact H]); [now rewrite <- Hp | now rewrite Hp].
Qed.

Lemma flatten_street_trees_ext t1 t2 :
  categories_are_dicts t1 -> categories_are_dicts t2 ->
  (forall l, l ∈ category_leaves t1 <-> l ∈ category_leaves t2) ->
  flatten_street_trees t1 = flatten_street_trees t2.
Proof.
  intros H1 H2 Hsame. rewrite !flatten_street_trees_ok by assumption.
  f_equal. apply record_marks_ext. intros [c k]. rewrite !elem_of_marks.
  split; intros [v [Hin Hh]]; exists v; (split; [now apply Hsame|exact Hh]).
Qed.


End flattening.

(** * Signs of rounded results *)

Section rounding_signs.

Import F64.

Lemma shr_1_nonneg mrs : 0 <= shr_m mrs -> 0 <= shr_m (shr_1 mrs).
Proof.
  destruct mrs as [[|[m|m|]|m] r st]; simpl; intros H; try lia.
Qed.

Lemma shr_1_half mrs j :
  0 <= j -> 2 ^ (j + 1) <= shr_m mrs -> 2 ^ j <= shr_m (shr_1 mrs).
Proof.
  intros Hj. rewrite Z.pow_add_r by lia.
  pose proof (Z.pow_pos_nonneg 2 j ltac:(lia) Hj) as Hp.
  destruct mrs as [[|[m|m|]|m] r st]; simpl; intros H; try lia.
Qed.

Lemma iter_shr_1_nonneg k mrs :
  0 <= shr_m mrs -> 0 <= shr_m (SpecFloat.iter_pos shr_1 k mrs).
Proof.
  revert mrs. induction k as [k IH|k IH|]; intros mrs H; simpl.
  - apply IH, IH. now apply shr_1_nonneg.
  - now apply IH, IH.
  - now apply shr_1_nonneg.
Qed.

Lemma iter_shr_1_lower k mrs j :
  0 <= j -> 2 ^ (j + Zpos k) <= shr_m mrs ->
  2 ^ j <= shr_m (SpecFloat.iter_pos shr_1 k mrs).
Proof.
  revert mrs j. induction k as [k IH|k IH|]; intros mrs j Hj H; simpl.
  - apply IH; [lia|]. apply IH; [lia|]. apply shr_1_half; [lia|].
    replace (j + Z.pos k + Z.pos k + 1) with (j + Z.pos k~1) by lia. exact H.
  - apply IH; [lia|]. apply IH; [lia|].
    replace (j + Z.pos k + Z.pos k) with (j + Z.pos k~0) by lia. exact H.
  - now apply shr_1_half.
Qed.

Lemma digits2_pos_lower p : 2 ^ (Zpos (digits2_pos p) - 1) <= Zpos p.
Proof.
  induction p as [p IH|p IH|]; simpl digits2_pos.
  - rewrite Pos2Z.inj_succ.
    replace (Z.succ (Zpos (digits2_pos p)) - 1)
      with (Zpos (digits2_pos p) - 1 + 1) by lia.
    rewrite Z.pow_add_r by lia. lia.
  - rewrite Pos2Z.inj_succ.
    replace (Z.succ (Zpos (digits2_pos p)) - 1)
      with (Zpos (digits2_pos p) - 1 + 1) by lia.
    rewrite Z.pow_add_r by lia. lia.
  - simpl. lia.
Qed.

Lemma shr_m_of_loc m l : shr_m (shr_record_of_loc m l) = m.
Proof. now destruct l as [|[]]. Qed.

Lemma shr_fexp_nonneg m e l :
  0 <= m -> 0 <= shr_m (shr_fexp prec emax m e l).1.
Proof.
  intros H. unfold shr_fexp, shr.
  destruct (fexp prec emax (Zdigits2 m + e) - e); simpl;
    try (rewrite shr_m_of_loc; exact H).
  apply iter_shr_1_nonneg. now rewrite shr_m_of_loc.
Qed.

Lemma shr_fexp_pos m e l :
  0 < m -> emin prec emax <= e ->
  1 <= shr_m (shr_fexp prec emax m e l).1 /\
  emin prec emax <= (shr_fexp prec emax m e l).2.
Proof.
  intros Hm He. unfold shr_fexp, shr.
  destruct m as [|p|p]; try lia. simpl Zdigits2.
  pose proof (digits2_pos_lower p) as Hd.
  destruct (fexp prec emax (Zpos (digits2_pos p) + e) - e) as [|k|k] eqn:Hk;
    simpl; rewrite ?shr_m_of_loc; try (split; lia).
  split; [|lia].
  change 1 with (2 ^ 0). apply iter_shr_1_lower; [lia|].
  rewrite shr_m_of_loc. simpl (0 + _).
  eapply Z.le_trans; [|exact Hd].
  apply Z.pow_le_mono_r; [lia|].
  unfold fexp, emin, prec, emax in *. lia.
Qed.

Lemma round_nearest_even_ge m l : m <= round_nearest_even m l.
Proof.
  unfold round_nearest_even. destruct l as [|[]]; try lia.
  destruct (Z.even m); lia.
Qed.

(** The result of a rounding has the sign it is given. *)
Lemma binary_round_aux_signed s m e l :
  0 <= m -> signed s (binary_round_aux prec emax s m e l).
Proof.
  intros Hm. unfold binary_round_aux.
  pose proof (shr_fexp_nonneg m e l Hm) as H1.
  destruct (shr_fexp prec emax m e l) as [mrs' e'].
  pose proof (round_nearest_even_ge (shr_m mrs') (loc_of_shr_record mrs')) as H2.
  pose proof (shr_fexp_nonneg
                (round_nearest_even (shr_m mrs') (loc_of_shr_record mrs'))
                e' loc_Exact ltac:(simpl in H1; lia)) as H3.
  destruct (shr_fexp prec emax _ e' loc_Exact) as [mrs'' e''].
  simpl in H3. destruct (shr_m mrs''); try lia; [reflexivity|].
  now destruct (e'' <=? emax - prec).
Qed.

(** A positive mantissa above the underflow range does not round to
    zero. *)
Lemma binary_round_aux_nonzero s m e l :
  0 < m -> emin prec emax <= e ->
  nonzero (binary_round_aux prec emax s m e l).
Proof.
  intros Hm He. unfold binary_round_aux.
  pose proof (shr_fexp_pos m e l Hm He) as [H1 H1e].
  destruct (shr_fexp prec emax m e l) as [mrs' e'].
  pose proof (round_nearest_even_ge (shr_m mrs') (loc_of_shr_record mrs')) as H2.
  simpl in H1, H1e.
  pose proof (shr_fexp_pos
                (round_nearest_even (shr_m mrs') (loc_of_shr_record mrs'))
                e' loc_Exact ltac:(lia) H1e) as [H3 _].
  destruct (shr_fexp prec emax _ e' loc_Exact) as [mrs'' e''].
  simpl in H3. destruct (shr_m mrs''); try lia.
  now destruct (e'' <=? emax - prec).
Qed.

Lemma nonneg_spec x :
  nonneg x = true <->
  match x with
  | S754_zero _ => True
  | S754_infinity s | S754_finite s _ _ => s = false
  | S754_nan => False
  end.
Proof.
  destruct x as [s|[]| |[] m e]; unfold nonneg, SFleb; simpl;
    split; intros H; try reflexivity; try discriminate; try contradiction;
    exact I.
Qed.

Lemma signed_nonneg x : signed false x -> nonneg x = true.
Proof. intros H. apply nonneg_spec. now destruct x. Qed.

Lemma div_core_nonneg m1 e1 m2 e2 :
  0 <= m1 -> 0 < m2 ->
  0 <= (SFdiv_core_binary prec emax m1 e1 m2 e2).1.1.
Proof.
  intros H1 H2. unfold SFdiv_core_binary.
  set (sh := e1 - e2 - _).
  set (m' := match sh with Z0 => m1 | Zpos _ => Z.shiftl m1 sh | Zneg _ => 0 end).
  assert (Hm' : 0 <= m').
  { subst m'. destruct sh; try lia. now apply Z.shiftl_nonneg. }
  destruct (Z.div_eucl m' m2) as [q r] eqn:E. simpl.
  assert (Hq : q = m' / m2) by (unfold Z.div; now rewrite E).
  rewrite Hq. apply Z.div_pos; lia.
Qed.

Lemma of_ratio_signed s n d : 0 < d -> signed s (of_ratio s n d).
Proof.
  intros Hd. unfold of_ratio.
  pose proof (div_core_nonneg (Z.abs n) 0 d 0 ltac:(lia) Hd) as Hq.
  destruct (SFdiv_core_binary prec emax (Z.abs n) 0 d 0) as [[q e] l].
  destruct n; [reflexivity| |]; now apply binary_round_aux_signed.
Qed.

Lemma of_decimal_signed s m e10 : signed s (of_decimal s m e10).
Proof.
  unfold of_decimal. destruct (Z.leb_spec 0 e10).
  - apply of_ratio_signed. lia.
  - apply of_ratio_signed. apply Z.pow_pos_nonneg; lia.
Qed.

Lemma add_nonneg x y :
  nonneg x = true -> nonneg y = true -> nonneg (add x y) = true.
Proof.
  rewrite !nonneg_spec. unfold add.
  destruct x as [sx|sx| |sx mx ex], y as [sy|sy| |sy my ey]; simpl;
    intros Hx Hy; subst; try contradiction; try reflexivity; try exact I.
  - now destruct sx, sy.
  - apply nonneg_spec, signed_nonneg.
    unfold binary_normalize, binary_round.
    destruct (shl_align mx ex (Z.min ex ey)) as [ax ?].
    destruct (shl_align my ey (Z.min ex ey)) as [ay ?]. simpl.
    destruct (shl_align _ _ _) as [mz ez].
    now apply binary_round_aux_signed.
Qed.

Lemma div_nonneg x my ey :
  nonneg x = true -> nonneg (div x (S754_finite false my ey)) = true.
Proof.
  intros Hx. apply nonneg_spec in Hx. unfold div.
  destruct x as [sx|sx| |sx mx ex]; simpl in *; subst;
    try contradiction; try reflexivity.
  pose proof (div_core_nonneg (Zpos mx) ex (Zpos my) ey
                ltac:(lia) ltac:(lia)) as Hq.
  destruct (SFdiv_core_binary prec emax (Zpos mx) ex (Zpos my) ey)
    as [[q e] l].
  apply signed_nonneg. now apply binary_round_aux_signed.
Qed.

(** The float of a positive count is a positive finite number, unless the
    conversion overflows. *)
Lemma of_int_positive n y :
  0 < n -> of_int n = Ok y -> exists my ey, y = S754_finite false my ey.
Proof.
  intros Hn. unfold of_int, of_Z. destruct n as [|p|p]; try lia.
  unfold binary_normalize, binary_round.
  assert (He : emin prec emax <= (shl_align p 0 (fexp prec emax (Zpos (digits2_pos p) + 0))).2).
  { unfold shl_align, fexp, emin, prec, emax.
    destruct (Z.max _ _ - 0) eqn:E; simpl; lia. }
  destruct (shl_align p 0 _) as [mz ez]. simpl in He.
  pose proof (binary_round_aux_signed false (Zpos mz) ez loc_Exact ltac:(lia)) as Hs.
  pose proof (binary_round_aux_nonzero false (Zpos mz) ez loc_Exact ltac:(lia) He) as Hz.
  destruct (binary_round_aux prec emax false (Zpos mz) ez loc_Exact)
    as [s|s| |s my ey]; simpl in *; try contradiction; try discriminate.
  intros [= <-]. subst s. now exists my, ey.
Qed.

Lemma py_round_nonneg x ndigits :
  nonneg x = true -> nonneg (Round.py_round x ndigits) = true.
Proof.
  intros H. destruct x as [s|s| |s m e]; try exact H.
  apply nonneg_spec in H. subst s. unfold Round.py_round.
  destruct (323 <? ndigits)%N; [reflexivity|].
  apply signed_nonneg, of_decimal_signed.
Qed.

End rounding_signs.

(** * The aggregation loop *)

Section aggregation.

Implicit Types (trees : index) (c : string) (d : pydict) (t : tally).

Lemma examine_dict trees c d :
  examine trees c (PyDict d) =
  match dict_get d "Price", dict_get d "Street Name" with
  | Some p, Some street =>
      street_name ← py_lower street;
      price ← price_of p;
      if String.eqb street_name "" then Raise ValueError else
      match trees !! street_name with
      | None => Raise KeyError
      | Some types =>
          Ok (if bool_decide (is_Some (types !! c)) then Some price else None)
      end
  | _, _ => Raise KeyError
  end.
Proof.
  unfold examine, py_in, py_get.
  destruct (dict_get d "Price"), (dict_get d "Street Name"); reflexivity.
Qed.

Lemma py_float_raise text e :
  Parse.py_float text = Raise e -> e = ValueError.
Proof.
  unfold Parse.py_float. intros H.
  repeat case_match; congruence.
Qed.

Lemma price_of_raise p e : price_of p = Raise e -> e = ValueError.
Proof.
  destruct p as [|[]|n| | | |]; simpl; try (apply py_float_raise); try congruence.
  unfold str_int. case_match; simpl; [congruence|apply py_float_raise].
Qed.


Lemma scan_cons trees c property rest t :
  scan trees c (property :: rest) t =
  t' ← visit trees c property t; scan trees c rest t'.
Proof. reflexivity. Qed.





(** A record that is not counted leaves the accumulators as they are. *)
Lemma visit_not_counted trees c property t t' :
  counted trees c property = None ->
  visit trees c property t = Ok t' -> same_sums t t'.
Proof.
  unfold counted, visit.
  destruct (examine trees c property) as [[price|]|e]; try discriminate.
  - intros _ [= <-]. now split.
  - intros _. destruct (caught e); [|discriminate]. intros [= <-]. now split.
Qed.

Lemma scan_not_counted trees c sales t t' :
  Forall (fun property => counted trees c property = None) sales ->
  scan trees c sales t = Ok t' -> same_sums t t'.
Proof.
  intros Hall. revert t. induction Hall as [|p sales Hp Hall IH]; intros t.
  - intros [= <-]. now split.
  - rewrite scan_cons. destruct (visit trees c p t) as [t1|e] eqn:Hv;
      [|discriminate].
    intros Hs. destruct (visit_not_counted _ _ _ _ _ Hp Hv) as [H1 H2].
    destruct (IH _ Hs) as [H3 H4]. split; congruence.
Qed.

Lemma visit_nonneg trees c property t t' :
  (forall x, counted trees c property = Some x -> F64.nonneg x = true) ->
  visit trees c property t = Ok t' ->
  F64.nonneg (total_price t) = true ->
  F64.nonneg (total_price t') = true.
Proof.
  unfold counted, visit. intros Hx.
  destruct (examine trees c property) as [[price|]|e].
  - intros [= <-] Ht. simpl. apply add_nonneg; [exact Ht|now apply Hx].
  - now intros [= <-].
  - destruct (caught e); [|discriminate]. now intros [= <-].
Qed.

Lemma visit_count trees c property t t' :
  visit trees c property t = Ok t' -> property_count t <= property_count t'.
Proof.
  unfold visit. destruct (examine trees c property) as [[price|]|e].
  - intros [= <-]. simpl. lia.
  - intros [= <-]. lia.
  - destruct (caught e); [|discriminate]. intros [= <-]. simpl. lia.
Qed.

Lemma scan_nonneg trees c sales t t' :
  Forall (fun property =>
            forall x, counted trees c property = Some x ->
                      F64.nonneg x = true) sales ->
  scan trees c sales t = Ok t' ->
  F64.nonneg (total_price t) = true ->
  F64.nonneg (total_price t') = true.
Proof.
  intros Hall. revert t. induction Hall as [|p sales Hp Hall IH]; intros t.
  - now intros [= <-].
  - rewrite scan_cons. destruct (visit trees c p t) as [t1|e] eqn:Hv;
      [|discriminate].
    intros Hs Ht. apply (IH _ Hs). now apply (visit_nonneg _ _ _ _ _ Hp Hv).
Qed.

Lemma scan_count trees c sales t t' :
  scan trees c sales t = Ok t' -> property_count t <= property_count t'.
Proof.
  revert t. induction sales as [|p sales IH]; intros t.
  - intros [= <-]. lia.
  - rewrite scan_cons. destruct (visit trees c p t) as [t1|e] eqn:Hv;
      [|discriminate].
    intros Hs. pose proof (visit_count _ _ _ _ _ Hv). pose proof (IH _ Hs). lia.
Qed.

Lemma average_of_nonneg t r :
  F64.nonneg (total_price t) = true -> 0 <= property_count t ->
  average_of t = Ok r -> F64.nonneg r = true.
Proof.
  intros Ht Hc. unfold average_of.
  destruct (Z.eqb_spec (property_count t) 0) as [H0|H0]; simpl.
  - intros [= <-]. reflexivity.
  - destruct (F64.of_int (property_count t)) as [y|e] eqn:Hy; [|discriminate].
    simpl. intros [= <-].
    assert (Hpos : 0 < property_count t) by lia.
    destruct (of_int_positive _ _ Hpos Hy) as (my & ey & ->).
    apply py_round_nonneg. now apply div_nonneg.
Qed.

Lemma half_even_nonneg (n q : Z) :
  0 <= n -> 0 < q -> 0 <= Round.half_even n q.
Proof.
  intros Hn Hq. unfold Round.half_even.
  pose proof (Z.div_pos n q Hn Hq).
  destruct (2 * (n mod q) ?= q); [destruct (Z.even (n / q))| |]; lia.
Qed.

Lemma py_round_two_decimals x :
  F64.is_finite x = true -> Round.two_decimals (Round.py_round x 2).
Proof.
  destruct x as [s|s| |s m e]; try discriminate; intros _.
  - exists s, 0. split; [lia|reflexivity].
  - unfold Round.py_round. cbn [N.ltb N.compare Pos.compare Pos.compare_cont].
    eexists s, _. split; [|reflexivity].
    destruct (Z.leb_spec 0 e).
    + apply Z.mul_nonneg_nonneg; [apply Z.mul_nonneg_nonneg|]; lia.
    + apply half_even_nonneg; [lia|]. apply Z.pow_pos_nonneg; lia.
Qed.

Lemma average_of_rounded t r :
  average_of t = Ok r -> Round.two_decimals r \/ F64.is_finite r = false.
Proof.
  unfold average_of.
  destruct (if negb (property_count t =? 0)
            then count ← F64.of_int (property_count t);
                 Ok (F64.div (total_price t) count)
            else Ok F64.zero) as [a|e]; [|discriminate].
  simpl. intros [= <-].
  destruct (F64.is_finite a) eqn:Ha.
  - left. now apply py_round_two_decimals.
  - right. now destruct a.
Qed.

End aggregation.

(** * Properties of the flattener *)

Example booleans_flatten :
  flatten_street_trees Samples.booleans = Ok Samples.booleans_index.
Proof. vm_cast_no_check (@eq_refl _ (Ok Samples.booleans_index)). Qed.




(** C7.  Flattening is idempotent: two runs on a taxonomy give the same
    index; running the traversal again over the index it produced leaves
    the index as it is; the order in which the categories are inserted
    does not matter; and a leaf met again for a street and category
    already recorded leaves the index unchanged. *)
Theorem flatten_idempotent (t : pydict) (flattened : index) :
  flatten_street_trees t = Ok flattened ->
  (forall again, flatten_street_trees t = Ok again -> again = flattened) /\
  flatten_categories t flattened = Ok flattened /\
  (forall t', t ≡ₚ t' -> flatten_street_trees t' = Ok flattened) /\
  (forall c k v, (c, k, v) ∈ category_leaves t -> is_height v = true ->
     record_street k c flattened = flattened).
Proof.
  intros Hf. pose proof (flatten_street_trees_Ok _ _ Hf) as [Ht Heq].
  split; [|split; [|split]].
  - intros again Ha. rewrite Hf in Ha. now injection Ha.
  - rewrite flatten_categories_ok by assumption. subst flattened.
    now rewrite record_marks_idem.
  - intros t' Hp. rewrite <- Hf. apply flatten_street_trees_ext.
    + unfold categories_are_dicts. now rewrite <- Hp.
    + assumption.
    + intros l. symmetry. now apply category_leaves_perm.
  - intros c k v Hin Hh. apply record_street_again.
    apply (flattened_flag t flattened k c Hf). now exists v.
Qed.

Lemma flatten_idempotent_witness :
  flatten_street_trees Reference.street_trees = Ok Reference.expected_index /\
  (forall again,
     flatten_street_trees Reference.street_trees = Ok again ->
     again = Reference.expected_index) /\
  flatten_categories Reference.street_trees Reference.expected_index =
    Ok Reference.expected_index /\
  (forall t', Reference.street_trees ≡ₚ t' ->
     flatten_street_trees t' = Ok Reference.expected_index) /\
  (forall c k v, (c, k, v) ∈ category_leaves Reference.street_trees ->
     is_height v = true ->
     record_street k c Reference.expected_index = Reference.expected_index).
Proof.
  split; [exact reference_flatten|].
  exact (flatten_idempotent Reference.street_trees Reference.expected_index
           reference_flatten).
Defined.

(** C8.  Flattening is depth-independent: two taxonomies with the same
    set of (category, street, height) leaves, however nested, flatten to
    equal indexes; both flattenings return when every category is mapped
    to a dictionary. *)
Theorem flatten_depth_independent (t1 t2 : pydict) :
  (forall l, l ∈ category_leaves t1 <-> l ∈ category_leaves t2) ->
  (forall f1 f2,
     flatten_street_trees t1 = Ok f1 -> flatten_street_trees t2 = Ok f2 ->
     f1 = f2) /\
  (categories_are_dicts t1 -> categories_are_dicts t2 ->
   exists flattened,
     flatten_street_trees t1 = Ok flattened /\
     flatten_street_trees t2 = Ok flattened).
Proof.
  intros Hsame. split.
  - intros f1 f2 [H1 ->]%flatten_street_trees_Ok [H2 ->]%flatten_street_trees_Ok.
    pose proof (flatten_street_trees_ext t1 t2 H1 H2 Hsame) as H.
    rewrite !flatten_street_trees_ok in H by assumption. now injection H.
  - intros H1 H2. exists (record_marks (marks (category_leaves t1)) ∅).
    rewrite <- (flatten_street_trees_ext t1 t2 H1 H2 Hsame).
    split; now apply flatten_street_trees_ok.
Qed.

Lemma flatten_depth_independent_witness :
  (forall l, l ∈ category_leaves Reference.street_trees <->
             l ∈ category_leaves Samples.flat_reference) /\
  (forall f,
     flatten_street_trees Samples.flat_reference = Ok f ->
     Reference.expected_index = f).
Proof.
  assert (H : forall l, l ∈ category_leaves Reference.street_trees <->
                        l ∈ category_leaves Samples.flat_reference).
  { intros l. split; intros Hl; vm_compute in Hl;
      repeat (apply elem_of_cons in Hl as [->|Hl]; [in_list|]);
      now apply not_elem_of_nil in Hl. }
  split; [exact H|]. intros f Hf.
  exact (proj1 (flatten_depth_independent Reference.street_trees
                  Samples.flat_reference H)
           Reference.expected_index f reference_flatten Hf).
Defined.

(** C9.  A street with a valid leaf under two categories carries both
    flags, and recording a category for a street never removes a flag
    that is already set, be it by one assignment or by a whole traversal. *)
Theorem street_in_two_categories
    (t : pydict) (flattened : index) (k c1 c2 : string) (v1 v2 : pyval) :
  flatten_street_trees t = Ok flattened ->
  (c1, k, v1) ∈ category_leaves t -> is_height v1 = true ->
  (c2, k, v2) ∈ category_leaves t -> is_height v2 = true ->
  (exists types, flattened !! k = Some types /\
     types !! c1 = Some true /\ types !! c2 = Some true) /\
  (forall f k' c' k0 c0,
     flag f k0 c0 = Some true ->
     flag (record_street k' c' f) k0 c0 = Some true) /\
  (forall v c' f f' k0 c0,
     flatten_street_tree_type v c' f = Ok f' ->
     flag f k0 c0 = Some true -> flag f' k0 c0 = Some true).
Proof.
  intros Hf Hin1 Hh1 Hin2 Hh2. split; [|split].
  - assert (F1 : flag flattened k c1 = Some true)
      by (apply (flattened_flag t flattened k c1 Hf); eauto).
    assert (F2 : flag flattened k c2 = Some true)
      by (apply (flattened_flag t flattened k c2 Hf); eauto).
    apply flag_lookup in F1 as (types & Hk & Hc1).
    apply flag_lookup in F2 as (types' & Hk' & Hc2).
    rewrite Hk in Hk'. injection Hk' as <-. now exists types.
  - intros f k' c' k0 c0. apply record_street_keeps.
  - intros v c' f f' k0 c0. apply flatten_keeps.
Qed.

Lemma street_in_two_categories_witness :
  flatten_street_trees Reference.street_trees = Ok Reference.expected_index /\
  ("short", "ventry park", PyInt 0) ∈ category_leaves Reference.street_trees /\
  is_height (PyInt 0) = true /\
  ("tall", "ventry park", PyInt 20) ∈ category_leaves Reference.street_trees /\
  is_height (PyInt 20) = true /\
  exists types,
    Reference.expected_index !! "ventry park" = Some types /\
    types !! "short" = Some true /\ types !! "tall" = Some true.
Proof.
  assert (H1 : ("short", "ventry park", PyInt 0)
                 ∈ category_leaves Reference.street_trees).
  { in_list. }
  assert (H2 : ("tall", "ventry park", PyInt 20)
                 ∈ category_leaves Reference.street_trees).
  { in_list. }
  split; [exact reference_flatten|]. split; [exact H1|].
  split; [reflexivity|]. split; [exact H2|]. split; [reflexivity|].
  exact (proj1 (street_in_two_categories Reference.street_trees
                  Reference.expected_index "ventry park" "short" "tall"
                  (PyInt 0) (PyInt 20) reference_flatten
                  H1 eq_refl H2 eq_refl)).
Defined.

(** C10.  A leaf whose value is a boolean passes the height test, so the
    street is recorded under the enclosing category. *)
Theorem boolean_leaf_is_recorded
    (t : pydict) (flattened : index) (c k : string) (b : bool) :
  flatten_street_trees t = Ok flattened ->
  (c, k, PyBool b) ∈ category_leaves t ->
  is_height (PyBool b) = true /\
  exists types, flattened !! k = Some types /\ types !! c = Some true.
Proof.
  intros Hf Hin. split; [reflexivity|]. apply flag_lookup.
  apply (flattened_flag t flattened k c Hf). now exists (PyBool b).
Qed.

Lemma boolean_leaf_is_recorded_witness :
  flatten_street_trees Samples.booleans = Ok Samples.booleans_index /\
  ("tall", "mill lane", PyBool false) ∈ category_leaves Samples.booleans /\
  is_height (PyBool false) = true /\
  exists types,
    Samples.booleans_index !! "mill lane" = Some types /\
    types !! "tall" = Some true.
Proof.
  assert (H : ("tall", "mill lane", PyBool false)
                ∈ category_leaves Samples.booleans).
  { in_list. }
  split; [exact booleans_flatten|]. split; [exact H|].
  exact (boolean_leaf_is_recorded Samples.booleans Samples.booleans_index
           "tall" "mill lane" false booleans_flatten H).
Defined.

(** * Properties of the aggregator *)

Lemma reference_new :
  new Reference.property_sales Reference.street_trees = Ok Samples.reference.
Proof. unfold new. now rewrite reference_flatten. Qed.

(** C1.  On the reference data the average for [tall] is 135000.00 and
    the average for [short] is 114750.00; "the park" is a short-only
    street, "cambridge road" a tall-only one and "ventry park" carries
    both categories. *)
Theorem reference_averages :
  exists self,
    new Reference.property_sales Reference.street_trees = Ok self /\
    street_trees self !! "the park" = Some {[ "short" := true ]} /\
    street_trees self !! "cambridge road" = Some {[ "tall" := true ]} /\
    street_trees self !! "ventry park"
      = Some {[ "short" := true; "tall" := true ]} /\
    calculate_average_price self "tall"
      = Ok (F64.of_decimal false 13500000 (-2)) /\
    calculate_average_price self "short"
      = Ok (F64.of_decimal false 11475000 (-2)) /\
    F64.of_decimal false 13500000 (-2) = F64.of_Z 135000 /\
    F64.of_decimal false 11475000 (-2) = F64.of_Z 114750.
Proof.
  exists Samples.reference. split; [exact reference_new|].
  repeat split; vm_compute; reflexivity.
Qed.

(** C2, evaluated where it fails: a row whose street name is [None], as
    [csv.DictReader] yields for a short line, and a record that is a list
    naming both fields raise [AttributeError] out of both public calls;
    the [except] clause does not list that class. *)
Theorem ill_typed_record_escapes :
  (exists self,
     new (Reference.property_sales ++ [Samples.short_row])
         Reference.street_trees = Ok self /\
     calculate_average_price_tall_trees self = Raise AttributeError /\
     calculate_average_price_short_trees self = Raise AttributeError) /\
  (exists self,
     new [Samples.list_row] Reference.street_trees = Ok self /\
     calculate_average_price_tall_trees self = Raise AttributeError /\
     calculate_average_price_short_trees self = Raise AttributeError) /\
  caught AttributeError = false.
Proof.
  split; [|split; [|reflexivity]].
  - exists {| property_sales := Reference.property_sales ++ [Samples.short_row];
              street_trees := Reference.expected_index |}.
    split; [unfold new; now rewrite reference_flatten|].
    split; vm_compute; reflexivity.
  - exists {| property_sales := [Samples.list_row];
              street_trees := Reference.expected_index |}.
    split; [unfold new; now rewrite reference_flatten|].
    split; vm_compute; reflexivity.
Qed.

Example rejected_cases :
  rejected Reference.expected_index [("Street Name", PyStr "the park")] /\
  rejected Reference.expected_index [("Price", PyStr "79500.00")] /\
  rejected Reference.expected_index (Samples.street_and_price "" "79500.00") /\
  rejected Reference.expected_index
    (Samples.street_and_price "the park" "79.500,00 EUR") /\
  rejected Reference.expected_index
    [("Street Name", PyStr "the park"); ("Price", PyNone)] /\
  rejected Reference.expected_index
    (Samples.street_and_price "elm street" "79500.00").
Proof.
  repeat split.
  - apply missing_field. now left.
  - apply missing_field. now right.
  - now apply (blank_street_name _ _ "").
  - now apply (unparsable_price _ _ "the park" (PyStr "79.500,00 EUR")).
  - now apply (unparsable_price _ _ "the park" PyNone).
  - now apply (unknown_street _ _ "elm street").
Qed.



(** C5, as stated, fails: a negative price is accepted and gives a
    negative average. *)
Lemma negative_price_negative_average :
  new (property_sales Samples.refund) Reference.street_trees
    = Ok Samples.refund /\
  calculate_average_price Samples.refund "tall"
    = Ok (F64.of_decimal true 12000000 (-2)) /\
  F64.nonneg (F64.of_decimal true 12000000 (-2)) = false.
Proof.
  split; [unfold new; now rewrite reference_flatten|].
  split; vm_compute; reflexivity.
Qed.

(** C5, as amended.  A returned category average is a float rounded to two
    fraction digits (or an infinity or NaN, which [round] returns as they
    are), it is exactly [0.0] when no record is counted, and it is
    non-negative when every counted price is. *)
Theorem average_is_rounded
    (self : PropertyValueStatistics) (tree_type : string) (r : F64.float) :
  calculate_average_price self tree_type = Ok r ->
  (Round.two_decimals r \/ F64.is_finite r = false) /\
  (Forall (fun property =>
             counted (street_trees self) tree_type property = None)
          (property_sales self) ->
   r = F64.zero) /\
  (Forall (fun property =>
             forall x, counted (street_trees self) tree_type property = Some x ->
                       F64.nonneg x = true)
          (property_sales self) ->
   F64.nonneg r = true).
Proof.
  unfold calculate_average_price.
  destruct (scan (street_trees self) tree_type (property_sales self) start)
    as [t|e] eqn:Hs; [|discriminate].
  cbn [mbind result_bind bind]. intros Ha. split; [|split].
  - now apply (average_of_rounded t).
  - intros Hnone. destruct (scan_not_counted _ _ _ _ _ Hnone Hs) as [_ Hc].
    unfold average_of in Ha. rewrite <- Hc in Ha. simpl in Ha.
    now injection Ha as <-.
  - intros Hpos. apply (average_of_nonneg t r).
    + now apply (scan_nonneg _ _ _ _ _ Hpos Hs).
    + now apply (scan_count _ _ _ _ _ Hs).
    + exact Ha.
Qed.

Lemma average_is_rounded_witness :
  calculate_average_price Samples.reference "tall" = Ok (F64.of_Z 135000) /\
  (Round.two_decimals (F64.of_Z 135000) \/
   F64.is_finite (F64.of_Z 135000) = false) /\
  F64.nonneg (F64.of_Z 135000) = true /\
  calculate_average_price Samples.reference "medium" = Ok F64.zero.
Proof.
  assert (H : calculate_average_price Samples.reference "tall"
              = Ok (F64.of_Z 135000)) by (vm_compute; reflexivity).
  assert (Hpos : Forall (fun property =>
                    forall x, counted (street_trees Samples.reference) "tall"
                                property = Some x ->
                              F64.nonneg x = true)
                   (property_sales Samples.reference)).
  { repeat constructor; intros x; vm_compute; intros Hx;
      try discriminate Hx; injection Hx as <-; reflexivity. }
  destruct (average_is_rounded Samples.reference "tall" _ H) as (R1 & _ & R3).
  split; [exact H|]. split; [exact R1|]. split; [exact (R3 Hpos)|].
  assert (Hm : exists r, calculate_average_price Samples.reference "medium"
                         = Ok r) by (eexists; vm_compute; reflexivity).
  destruct Hm as [r Hr]. rewrite Hr. f_equal.
  apply (proj1 (proj2 (average_is_rounded Samples.reference "medium" r Hr))).
  repeat constructor.
Defined.




(** * Properties of the configuration lookup *)

Section config_names.

Import Config.

Implicit Types (name key rest word : string) (words : list string).

Lemma split_dots_cons name : exists word words, split_dots name = word :: words.
Proof.
  induction name as [|c name (word & words & IH)]; simpl; [eauto|].
  destruct (is_dot c); [eauto|]. rewrite IH. eauto.
Qed.

Lemma concat_cons_cons (sep x y : string) (l : list string) :
  String.concat sep (x :: y :: l) = (x ++ sep ++ String.concat sep (y :: l))%string.
Proof. reflexivity. Qed.

Lemma concat_split_dots name : String.concat "." (split_dots name) = name.
Proof.
  induction name as [|c name IH]; [reflexivity|].
  destruct (split_dots_cons name) as (word & words & E).
  cbn [split_dots]. rewrite E in IH |- *.
  destruct (is_dot c) eqn:Hc.
  - rewrite concat_cons_cons, IH.
    unfold is_dot in Hc. apply Ascii.eqb_eq in Hc. now subst.
  - destruct words as [|word' words].
    + cbn in IH |- *. now rewrite IH.
    + rewrite concat_cons_cons in IH |- *. now rewrite <- IH.
Qed.

Lemma split_dots_no_dot name :
  Forall (fun word => has_dot word = false) (split_dots name).
Proof.
  induction name as [|c name IH]; simpl; [repeat constructor|].
  destruct (is_dot c) eqn:Hc; [now constructor|].
  destruct (split_dots name) as [|word words]; [repeat constructor; simpl; now rewrite Hc|].
  inversion IH; subst. constructor; [simpl; now rewrite Hc|assumption].
Qed.

Lemma split_dots_dotless name :
  has_dot name = false -> split_dots name = [name].
Proof.
  induction name as [|c name IH]; [reflexivity|]. simpl.
  destruct (is_dot c); [discriminate|]. simpl. intros H. now rewrite IH.
Qed.

Lemma split_dots_app a b :
  split_dots (a ++ "." ++ b) = (split_dots a ++ split_dots b)%list.
Proof.
  induction a as [|c a IH]; [reflexivity|].
  change ((String c a ++ "." ++ b)%string) with (String c (a ++ "." ++ b)).
  simpl split_dots. rewrite IH.
  destruct (is_dot c); [reflexivity|].
  destruct (split_dots_cons a) as (word & words & ->). reflexivity.
Qed.

Lemma rstrip_dots_nil name : rstrip_dots name = "" <-> all_dots name = true.
Proof.
  induction name as [|c name IH]; simpl; [tauto|].
  destruct (is_dot c); simpl.
  - destruct (String.eqb_spec (rstrip_dots name) "") as [E|E].
    + split; [intros _; now apply IH|reflexivity].
    + split; [discriminate|]. intros H. now apply IH in H.
  - split; discriminate.
Qed.

Lemma rstrip_dots_app_dot name : rstrip_dots (name ++ ".") = rstrip_dots name.
Proof.
  induction name as [|c name IH]; [reflexivity|].
  change ((String c name ++ ".")%string) with (String c (name ++ ".")).
  simpl. now rewrite IH.
Qed.

Lemma rstrip_dots_dotless name : has_dot name = false -> rstrip_dots name = name.
Proof.
  induction name as [|c name IH]; [reflexivity|]. simpl.
  destruct (is_dot c); [discriminate|]. simpl. intros H. now rewrite IH.
Qed.

Lemma rstrip_dots_app a b :
  all_dots b = false -> rstrip_dots (a ++ b) = (a ++ rstrip_dots b)%string.
Proof.
  intros Hb. induction a as [|c a IH]; [reflexivity|].
  change ((String c a ++ b)%string) with (String c (a ++ b)).
  simpl. rewrite IH.
  destruct (String.eqb_spec (a ++ rstrip_dots b) "") as [E|E];
    [|now rewrite andb_false_r].
  exfalso. destruct a; [|discriminate]. simpl in E.
  apply rstrip_dots_nil in E. congruence.
Qed.

Lemma name_to_list_Ok name :
  name <> "" -> name_to_list name = Ok (split_dots (rstrip_dots name)).
Proof.
  intros H. unfold name_to_list.
  destruct (String.eqb_spec name "") as [E|_]; [contradiction|].
  now destruct (split_dots_cons (rstrip_dots name)) as (word & words & ->).
Qed.

Lemma name_to_list_app k rest :
  has_dot k = false -> all_dots rest = false ->
  name_to_list (k ++ "." ++ rest) = Ok (k :: split_dots (rstrip_dots rest)).
Proof.
  intros Hk Hrest. rewrite name_to_list_Ok by now destruct k.
  rewrite (rstrip_dots_app k ("." ++ rest)) by exact Hrest.
  assert (E : rstrip_dots ("." ++ rest) = ("." ++ rstrip_dots rest)%string).
  { change (("." ++ rest)%string) with (String "." rest).
    cbn [rstrip_dots].
    destruct (String.eqb_spec (rstrip_dots rest) "") as [E|_];
      [|now rewrite andb_false_r].
    apply rstrip_dots_nil in E. congruence. }
  rewrite E, split_dots_app, split_dots_dotless by exact Hk. reflexivity.
Qed.

End config_names.

(** X1.  [_name_to_list] raises for the empty name only, and then
    [ValueError]: every other name gives at least one word, and a name of
    periods only gives the single empty word, so the second [raise] of the
    function is never reached. *)
Theorem name_to_list_raises_on_empty_only (name : string) :
  (name = "" /\ Config.name_to_list name = Raise ValueError) \/
  (name <> "" /\
   exists word words,
     Config.name_to_list name = Ok (word :: words) /\
     (all_dots name = true -> word = "" /\ words = [])).
Proof.
  destruct (String.eqb_spec name "") as [->|Hne]; [now left|right].
  split; [exact Hne|]. rewrite name_to_list_Ok by exact Hne.
  destruct (Config.split_dots (Config.rstrip_dots name)) as [|word words] eqn:E.
  - destruct (split_dots_cons (Config.rstrip_dots name)) as (? & ? & H).
    congruence.
  - exists word, words. split; [reflexivity|]. intros Hd.
    apply rstrip_dots_nil in Hd. rewrite Hd in E. simpl in E.
    now injection E as <- <-.
Qed.

(** X2.  The words [_name_to_list] returns hold no period, and joined with
    periods they give back the name without its trailing periods. *)
Theorem name_to_list_round_trip (name : string) (words : list string) :
  Config.name_to_list name = Ok words ->
  String.concat "." words = Config.rstrip_dots name /\
  Forall (fun word => has_dot word = false) words.
Proof.
  intros H. assert (Hne : name <> "") by (intros ->; discriminate).
  rewrite name_to_list_Ok in H by exact Hne. injection H as <-.
  split; [apply concat_split_dots|apply split_dots_no_dot].
Qed.

Lemma name_to_list_round_trip_witness :
  Config.name_to_list "logging.level.." = Ok ["logging"; "level"] /\
  String.concat "." ["logging"; "level"] = Config.rstrip_dots "logging.level.." /\
  Forall (fun word => has_dot word = false) ["logging"; "level"].
Proof.
  split; [reflexivity|].
  exact (name_to_list_round_trip "logging.level.." ["logging"; "level"] eq_refl).
Defined.

Section config_lookup.

Import Config.

Lemma get_value_loaded w cfg key :
  load_config w = Return cfg ->
  get_value w key =
  match name_to_list key with
  | Raise e => Raised (Builtin e)
  | Ok words =>
      match descend (PyDict cfg) words with
      | Raise e => Raised (Builtin e)
      | Ok value =>
          if is_dict value then Raised (Builtin ValueError) else Return value
      end
  end.
Proof.
  intros H. unfold get_value. destruct (name_to_list key) as [words|e];
    [|reflexivity].
  cbn [lift mbind outcome_bind and_then]. rewrite H.
  cbn [mbind outcome_bind and_then].
  destruct (descend (PyDict cfg) words) as [value|e];
    cbn [lift mbind outcome_bind and_then].
  - now destruct (is_dict value).
  - now destruct e.
Qed.

Lemma descend_dict cfg word words :
  descend (PyDict cfg) (word :: words) =
  match dict_get cfg word with
  | Some value => descend value words
  | None => Raise KeyError
  end.
Proof. cbn. now destruct (dict_get cfg word). Qed.

Lemma descend_not_dict value word words :
  is_dict value = false -> descend value (word :: words) = Raise TypeError.
Proof. now destruct value. Qed.

End config_lookup.

(** X3.  [Config.get_value] never returns a table: a returned value is not
    a dictionary. *)
Theorem get_value_never_a_table (w : world) (key : string) (value : pyval) :
  Config.get_value w key = Return value -> is_dict value = false.
Proof.
  unfold Config.get_value.
  destruct (Config.name_to_list key) as [words|e]; [|discriminate].
  cbn [lift mbind outcome_bind and_then].
  destruct (Config.load_config w) as [cfg|e]; [|discriminate].
  cbn [mbind outcome_bind and_then].
  destruct (Config.descend (PyDict cfg) words) as [v|e];
    cbn [lift mbind outcome_bind and_then].
  - destruct (is_dict v) eqn:Hv; [discriminate|]. now intros [= <-].
  - destruct (is_key_error (Builtin e)); discriminate.
Qed.

Lemma get_value_never_a_table_witness :
  Config.get_value Worlds.complete "logging.level" = Return (PyStr "DEBUG") /\
  is_dict (PyStr "DEBUG") = false.
Proof.
  split; [reflexivity|].
  exact (get_value_never_a_table Worlds.complete "logging.level"
           (PyStr "DEBUG") eq_refl).
Defined.

(** X4.  With the configuration loaded, a key of one word returns the
    value stored under the word when it is not a table, raises
    [ValueError] when it is a table and [KeyError] when the word is
    absent. *)
Theorem get_value_one_word (w : world) (cfg : pydict) (key : string) :
  Config.load_config w = Return cfg ->
  has_dot key = false -> key <> "" ->
  Config.get_value w key =
  match dict_get cfg key with
  | None => Raised (Builtin KeyError)
  | Some value =>
      if is_dict value then Raised (Builtin ValueError) else Return value
  end.
Proof.
  intros Hw Hd Hne. rewrite (get_value_loaded w cfg key Hw).
  rewrite name_to_list_Ok, rstrip_dots_dotless, split_dots_dotless
    by assumption.
  cbn. now destruct (dict_get cfg key).
Qed.

Lemma get_value_one_word_witness :
  Config.load_config Worlds.complete = Return Worlds.settings /\
  has_dot "name" = false /\ "name" <> "" /\
  Config.get_value Worlds.complete "name"
    = Return (PyStr "property-value-analysis") /\
  Config.get_value Worlds.complete "logging" = Raised (Builtin ValueError) /\
  Config.get_value Worlds.complete "colour" = Raised (Builtin KeyError).
Proof.
  split; [reflexivity|]. split; [reflexivity|]. split; [discriminate|].
  split; [|split].
  - exact (get_value_one_word Worlds.complete Worlds.settings "name"
             eq_refl eq_refl ltac:(discriminate)).
  - exact (get_value_one_word Worlds.complete Worlds.settings "logging"
             eq_refl eq_refl ltac:(discriminate)).
  - exact (get_value_one_word Worlds.complete Worlds.settings "colour"
             eq_refl eq_refl ltac:(discriminate)).
Defined.

(** X5.  A dotted key descends one table per word: when the first word
    names a table, looking the key up is looking the rest of the key up
    in that table. *)
Theorem get_value_descends
    (w w' : world) (cfg sub : pydict) (k rest : string) :
  Config.load_config w = Return cfg ->
  Config.load_config w' = Return sub ->
  dict_get cfg k = Some (PyDict sub) ->
  has_dot k = false -> all_dots rest = false ->
  Config.get_value w (k ++ "." ++ rest) = Config.get_value w' rest.
Proof.
  intros Hw Hw' Hk Hd Hr.
  rewrite (get_value_loaded w cfg _ Hw), (get_value_loaded w' sub _ Hw').
  rewrite name_to_list_app by assumption.
  rewrite name_to_list_Ok by (intros ->; discriminate).
  now rewrite descend_dict, Hk.
Qed.

Lemma get_value_descends_witness :
  Config.get_value Worlds.complete "logging.level" =
  Config.get_value
    (Worlds.configured [("level", PyStr "DEBUG"); ("file", PyStr "app.log")])
    "level".
Proof.
  apply (get_value_descends Worlds.complete _ Worlds.settings
           [("level", PyStr "DEBUG"); ("file", PyStr "app.log")]
           "logging" "level"); reflexivity.
Defined.

(** X6.  A key that leaves the tables: with the configuration loaded, a
    first word that is absent raises [KeyError] whatever follows it, and a
    key that goes on below a value that is not a table raises [TypeError],
    which [get_value] does not catch. *)
Theorem get_value_off_the_tables
    (w : world) (cfg : pydict) (k rest : string) :
  Config.load_config w = Return cfg ->
  has_dot k = false -> all_dots rest = false ->
  (dict_get cfg k = None ->
   Config.get_value w (k ++ "." ++ rest) = Raised (Builtin KeyError)) /\
  (forall value,
     dict_get cfg k = Some value -> is_dict value = false ->
     Config.get_value w (k ++ "." ++ rest) = Raised (Builtin TypeError)).
Proof.
  intros Hw Hd Hr. rewrite (get_value_loaded w cfg _ Hw).
  rewrite name_to_list_app by assumption.
  destruct (split_dots_cons (Config.rstrip_dots rest)) as (word & words & ->).
  rewrite descend_dict. split.
  - now intros ->.
  - intros value -> Hv. now rewrite descend_not_dict.
Qed.

Lemma get_value_off_the_tables_witness :
  Config.load_config Worlds.complete = Return Worlds.settings /\
  has_dot "name" = false /\ all_dots "first" = false /\
  Config.get_value Worlds.complete "name.first" = Raised (Builtin TypeError) /\
  Config.get_value Worlds.complete "colour.first" = Raised (Builtin KeyError).
Proof.
  split; [reflexivity|]. split; [reflexivity|]. split; [reflexivity|].
  split.
  - exact (proj2 (get_value_off_the_tables Worlds.complete Worlds.settings
                    "name" "first" eq_refl eq_refl eq_refl)
             (PyStr "property-value-analysis") eq_refl eq_refl).
  - exact (proj1 (get_value_off_the_tables Worlds.complete Worlds.settings
                    "colour" "first" eq_refl eq_refl eq_refl) eq_refl).
Defined.

(** X7.  Trailing periods of a key do not count: a key that is not empty
    and the same key with one more period give the same result, in every
    state of the configuration file. *)
Theorem get_value_trailing_period (w : world) (key : string) :
  key <> "" ->
  Config.get_value w (key ++ ".") = Config.get_value w key.
Proof.
  intros Hne. unfold Config.get_value.
  rewrite !name_to_list_Ok by (try assumption; now destruct key).
  now rewrite rstrip_dots_app_dot.
Qed.

Lemma get_value_trailing_period_witness :
  "logging.level" <> "" /\
  Config.get_value Worlds.complete ("logging.level" ++ ".")
  = Config.get_value Worlds.complete "logging.level".
Proof.
  split; [discriminate|].
  apply (get_value_trailing_period Worlds.complete "logging.level").
  discriminate.
Defined.

(** X8.  Loading the configuration fails in two ways only:
    [FileNotFoundError] when [config.toml] is missing, [AttributeError]
    for every failure on a file that exists (empty document, content that
    does not decode, read error).  [get_value] passes the failure on,
    unless the key is empty: the empty key is refused with [ValueError]
    before the file is looked at. *)
Theorem get_value_without_config (w : world) (key : string) (e : exc) :
  Config.load_config w = Raised e ->
  (config_exists w = false /\ e = FileNotFoundError \/
   config_exists w = true /\ e = Builtin AttributeError) /\
  Config.get_value w key =
    if String.eqb key "" then Raised (Builtin ValueError) else Raised e.
Proof.
  intros H. split.
  - unfold Config.load_config, Parsers.TOMLParser_extract in H.
    destruct (config_exists w); [right|left].
    + split; [reflexivity|].
      destruct (config_toml w) as [[|? ?]|e']; cbn in H; congruence.
    + split; [reflexivity|congruence].
  - unfold Config.get_value.
    destruct (String.eqb_spec key "") as [->|Hne]; [reflexivity|].
    rewrite name_to_list_Ok by assumption.
    cbn [lift mbind outcome_bind and_then]. now rewrite H.
Qed.

Lemma get_value_without_config_witness :
  Config.load_config Worlds.unconfigured = Raised FileNotFoundError /\
  Config.get_value Worlds.unconfigured "logging.level"
    = Raised FileNotFoundError /\
  Config.load_config (Worlds.configured []) = Raised (Builtin AttributeError) /\
  Config.get_value (Worlds.configured []) ""= Raised (Builtin ValueError).
Proof.
  split; [reflexivity|]. split; [|split; [reflexivity|]].
  - exact (proj2 (get_value_without_config Worlds.unconfigured
                    "logging.level" FileNotFoundError eq_refl)).
  - exact (proj2 (get_value_without_config (Worlds.configured [])
                    "" (Builtin AttributeError) eq_refl)).
Defined.

(** * Properties of the parsers and of the logger *)

Section loading.

Lemma load_config_Return w cfg :
  Config.load_config w = Return cfg ->
  config_exists w = true /\ config_toml w = Return cfg /\ cfg <> [].
Proof.
  unfold Config.load_config, Parsers.TOMLParser_extract.
  destruct (config_exists w); [|discriminate].
  destruct (config_toml w) as [[|kv rest]|e]; cbn; try discriminate.
  now intros [= <-].
Qed.

Lemma load_config_Raised w e :
  Config.load_config w = Raised e ->
  e = FileNotFoundError \/ e = Builtin AttributeError.
Proof.
  unfold Config.load_config, Parsers.TOMLParser_extract.
  destruct (config_exists w); [|intros [= <-]; now left].
  destruct (config_toml w) as [[|kv rest]|e']; cbn; try discriminate;
    intros [= <-]; now right.
Qed.

Lemma get_value_unloaded w key e :
  key <> "" -> Config.load_config w = Raised e ->
  Config.get_value w key = Raised e.
Proof.
  intros Hne H. unfold Config.get_value.
  rewrite name_to_list_Ok by assumption.
  cbn [lift mbind outcome_bind and_then]. now rewrite H.
Qed.

Lemma get_logger_loaded w cfg :
  logging_setup w = Return tt ->
  Config.load_config w = Return cfg ->
  Logger.get_logger w =
  match dict_get cfg "logging" with
  | None => Return 20
  | Some (PyDict table) =>
      match dict_get table "level" with
      | None => Return 20
      | Some level =>
          if is_dict level then Raised (Builtin ValueError)
          else lift (Logger.set_level level)
      end
  | Some _ => Raised (Builtin TypeError)
  end.
Proof.
  intros Hs Hw. unfold Logger.get_logger. rewrite Hs.
  cbn [mbind outcome_bind and_then].
  rewrite (get_value_loaded w cfg _ Hw).
  change (Config.name_to_list "logging.level") with (Ok ["logging"; "level"]).
  cbn match. rewrite descend_dict.
  destruct (dict_get cfg "logging") as [value|]; [|reflexivity].
  destruct value as [| | | | | |table];
    try (rewrite descend_not_dict by reflexivity; reflexivity).
  rewrite descend_dict.
  destruct (dict_get table "level") as [level|]; [|reflexivity].
  cbn [Config.descend]. now destruct (is_dict level).
Qed.

Lemma CSVParser_extract_id rows : Parsers.CSVParser_extract rows = rows.
Proof. destruct rows as [data|[]]; reflexivity. Qed.

Lemma JSONParser_extract_cases loaded :
  Parsers.JSONParser_extract loaded =
  match loaded with
  | Return data =>
      if truthy data then Return data else Raised (Builtin ValueError)
  | Raised e =>
      if is_value_error e then Raised (Builtin ValueError) else Raised e
  end.
Proof.
  unfold Parsers.JSONParser_extract. destruct loaded as [data|e].
  - cbn. now destruct (truthy data).
  - now destruct e as [[]| | | | | |].
Qed.

Lemma construct_unfold w sales trees :
  construct w sales trees =
  match flatten_any trees with
  | Raise e => Raised (Builtin e)
  | Ok flattened =>
      match Logger.get_logger w with
      | Raised e => Raised e
      | Return logger =>
          Return ({| property_sales := sales; street_trees := flattened |},
                  logger)
      end
  end.
Proof.
  unfold construct. destruct (flatten_any trees); [|reflexivity].
  cbn [lift mbind outcome_bind and_then].
  now destruct (Logger.get_logger w).
Qed.

Lemma flatten_any_Ok data flattened :
  flatten_any data = Ok flattened -> truthy data = true ->
  exists t, data = PyDict t /\ t <> [] /\ flatten_street_trees t = Ok flattened.
Proof.
  destruct data as [|b|n|x|s|l|t]; unfold flatten_any; intros Hf Ht;
    try (rewrite Ht in Hf; discriminate).
  exists t. split; [reflexivity|]. split; [|exact Hf]. now destruct t.
Qed.

Lemma get_logger_needs_config_aux w level :
  Logger.get_logger w = Return level -> config_exists w = true.
Proof.
  unfold Logger.get_logger.
  destruct (logging_setup w) as [[]|e]; [|discriminate].
  cbn [mbind outcome_bind and_then]. intros H.
  destruct (Config.load_config w) as [cfg|e] eqn:Hw.
  - now apply load_config_Return in Hw.
  - rewrite (get_value_unloaded w _ e) in H by (discriminate || assumption).
    apply load_config_Raised in Hw as [-> | ->]; discriminate.
Qed.

End loading.


(** X10.  [JSONParser.extract] returns the document exactly when it was
    decoded and is truthy; it raises a plain [ValueError] for a falsy
    document ([null], [false], [0], an empty string, array or object) and
    for every failure that is a [ValueError] (a document that does not
    parse, bytes that are not UTF-8); no decoding error leaves it under
    its own class. *)
Theorem json_parser_outcomes (loaded : outcome pyval) :
  (forall data,
     Parsers.JSONParser_extract loaded = Return data <->
     loaded = Return data /\ truthy data = true) /\
  (Parsers.JSONParser_extract loaded = Raised (Builtin ValueError) <->
     (exists data, loaded = Return data /\ truthy data = false) \/
     (exists e, loaded = Raised e /\ is_value_error e = true)) /\
  (forall e,
     Parsers.JSONParser_extract loaded = Raised e ->
     is_value_error e = true -> e = Builtin ValueError).
Proof.
  unfold Parsers.JSONParser_extract. destruct loaded as [data|e];
    cbn [mbind outcome_bind and_then].
  - destruct (truthy data) eqn:Ht; cbn.
    + split; [|split].
      * intros data'. split; [now intros [= <-]|now intros [[= <-] _]].
      * split; [discriminate|]. intros [(d & [= <-] & Hd)|(e & He & _)];
          congruence.
      * discriminate.
    + split; [|split].
      * intros data'. split; [discriminate|]. intros [[= <-] Hd]. congruence.
      * split; [|reflexivity]. intros _. left. now exists data.
      * now intros e [= <-].
  - split; [|split].
    + intros data. split; [|now intros [? _]].
      destruct e as [[]| | | | | |]; discriminate.
    + split.
      * intros H. right. exists e. split; [reflexivity|].
        destruct e as [[]| | | | | |]; cbn in H |- *; congruence.
      * intros [(d & Hd & _)|(e' & [= <-] & He)]; [discriminate|].
        destruct e as [[]| | | | | |]; cbn in He |- *; congruence.
    + intros e' H He'.
      destruct e as [[]| | | | | |]; cbn in H; injection H as <-;
        cbn in He'; congruence.
Qed.

(** X11.  The level of the logger, with the configuration loaded and the
    handlers set up: the level that [logging.level] names; [INFO] (20)
    when the table [logging] or its key [level] is absent; [ValueError]
    when [logging.level] is a table, [TypeError] when [logging] is not
    one, and the error of [setLevel] when the value is not an [int] or a
    level name. *)
Theorem get_logger_level (w : world) (cfg : pydict) :
  logging_setup w = Return tt ->
  Config.load_config w = Return cfg ->
  Logger.get_logger w =
  match dict_get cfg "logging" with
  | None => Return 20
  | Some (PyDict table) =>
      match dict_get table "level" with
      | None => Return 20
      | Some (PyInt n) => Return n
      | Some (PyBool b) => Return (if b then 1 else 0)
      | Some (PyStr name) =>
          match Logger.level_named Logger.level_names name with
          | Some level => Return level
          | None => Raised (Builtin ValueError)
          end
      | Some (PyDict _) => Raised (Builtin ValueError)
      | Some _ => Raised (Builtin TypeError)
      end
  | Some _ => Raised (Builtin TypeError)
  end.
Proof.
  intros Hs Hw. rewrite (get_logger_loaded w cfg Hs Hw).
  destruct (dict_get cfg "logging") as [[| | | | | |table]|]; try reflexivity.
  destruct (dict_get table "level") as [[| | | |name| |]|]; try reflexivity.
  cbn [is_dict lift Logger.set_level].
  now destruct (Logger.level_named Logger.level_names name).
Qed.

Lemma get_logger_level_witness :
  logging_setup Worlds.complete = Return tt /\
  Config.load_config Worlds.complete = Return Worlds.settings /\
  Logger.get_logger Worlds.complete = Return 10 /\
  Logger.get_logger (Worlds.configured [("name", PyStr "x")]) = Return 20 /\
  Logger.get_logger
    (Worlds.configured [("logging", PyDict [("level", PyStr "info")])])
  = Raised (Builtin ValueError).
Proof.
  split; [reflexivity|]. split; [reflexivity|]. split; [|split].
  - exact (get_logger_level Worlds.complete Worlds.settings eq_refl eq_refl).
  - exact (get_logger_level (Worlds.configured [("name", PyStr "x")])
             [("name", PyStr "x")] eq_refl eq_refl).
  - exact (get_logger_level
             (Worlds.configured [("logging", PyDict [("level", PyStr "info")])])
             [("logging", PyDict [("level", PyStr "info")])] eq_refl eq_refl).
Defined.

(** X12.  A logger is returned only with [config.toml] in place, decoded
    and not empty: the default level covers a missing key, not a missing
    or unreadable file. *)
Theorem get_logger_needs_config (w : world) (level : Z) :
  Logger.get_logger w = Return level ->
  logging_setup w = Return tt /\
  config_exists w = true /\
  exists cfg, config_toml w = Return cfg /\ cfg <> [].
Proof.
  unfold Logger.get_logger.
  destruct (logging_setup w) as [[]|e]; [|discriminate].
  cbn [mbind outcome_bind and_then]. intros H. split; [reflexivity|].
  destruct (Config.load_config w) as [cfg|e] eqn:Hw.
  - apply load_config_Return in Hw as (He & Ht & Hn). eauto.
  - rewrite (get_value_unloaded w _ e) in H by (discriminate || assumption).
    apply load_config_Raised in Hw as [-> | ->]; discriminate.
Qed.

Lemma get_logger_needs_config_witness :
  Logger.get_logger Worlds.complete = Return 10 /\
  config_exists Worlds.complete = true /\
  exists cfg, config_toml Worlds.complete = Return cfg /\ cfg <> [].
Proof.
  split; [reflexivity|].
  exact (proj2 (get_logger_needs_config Worlds.complete 10 eq_refl)).
Defined.

(** X13.  When loading the configuration fails, [get_logger] fails with
    the same exception ([FileNotFoundError] or [AttributeError]); neither
    is the [KeyError] that the [except] clause replaces by [INFO]. *)
Theorem get_logger_without_config (w : world) (e : exc) :
  logging_setup w = Return tt ->
  Config.load_config w = Raised e ->
  Logger.get_logger w = Raised e /\ is_key_error e = false.
Proof.
  intros Hs Hw. unfold Logger.get_logger. rewrite Hs.
  cbn [mbind outcome_bind and_then].
  rewrite (get_value_unloaded w _ e) by (discriminate || assumption).
  apply load_config_Raised in Hw as [-> | ->]; now split.
Qed.

Lemma get_logger_without_config_witness :
  logging_setup Worlds.unconfigured = Return tt /\
  Config.load_config Worlds.unconfigured = Raised FileNotFoundError /\
  Logger.get_logger Worlds.unconfigured = Raised FileNotFoundError.
Proof.
  split; [reflexivity|]. split; [reflexivity|].
  exact (proj1 (get_logger_without_config Worlds.unconfigured
                  FileNotFoundError eq_refl eq_refl)).
Defined.

(** * Properties of the entry point *)

Example run_complete :
  Application.run Worlds.complete =
  ([Application.Info_tall (F64.of_Z 135000);
    Application.Info_short (F64.of_Z 114750)], Application.Returns).
Proof. vm_compute. reflexivity. Qed.

(** X14.  [run] ends the program with two exit codes only: 100 when the
    CSV file is not found, 101 when the CSV file was read and the JSON
    file is not found; the critical message of the file is then the only
    call on the logger. *)
Theorem run_exit_codes (w : world) (log : list Application.event) (code : Z) :
  Application.run w = (log, Application.Exits code) ->
  (code = 100 /\ log = [Application.Critical_csv] /\
   property_csv w = Raised FileNotFoundError) \/
  (code = 101 /\ log = [Application.Critical_json] /\
   (exists rows, property_csv w = Return rows) /\
   trees_json w = Raised FileNotFoundError).
Proof.
  unfold Application.run.
  rewrite CSVParser_extract_id, JSONParser_extract_cases.
  destruct (property_csv w) as [rows|e].
  - destruct (trees_json w) as [data|e].
    + destruct (truthy data); [|discriminate].
      destruct (construct w rows data) as [[stats logger]|e]; [|discriminate].
      destruct (Reporting.calculate_average_price_tall_trees stats);
        [|discriminate].
      destruct (Reporting.calculate_average_price_short_trees stats);
        discriminate.
    + destruct e as [[]| | | | | |]; cbn; try discriminate.
      intros [= <- <-]. right. eauto.
  - destruct e as [[]| | | | | |]; cbn; try discriminate.
    intros [= <- <-]. left. auto.
Qed.

Lemma run_exit_codes_witness :
  Application.run (Worlds.reading (Return []) (Raised FileNotFoundError))
  = ([Application.Critical_json], Application.Exits 101) /\
  trees_json (Worlds.reading (Return []) (Raised FileNotFoundError))
  = Raised FileNotFoundError.
Proof.
  split; [reflexivity|].
  destruct (run_exit_codes
              (Worlds.reading (Return []) (Raised FileNotFoundError))
              [Application.Critical_json] 101 eq_refl)
    as [(H & _)|(_ & _ & _ & H)]; [discriminate H|exact H].
Defined.

(** X15.  With the rows read, a taxonomy that cannot be used ends [run]
    with an exception and without a message: [ValueError] when the JSON
    file does not decode or holds a falsy document ([except
    FileNotFoundError or ValueError] catches [FileNotFoundError] only),
    [AttributeError] from the constructor when the document is truthy and
    not an object. *)
Theorem run_unusable_taxonomy (w : world) (rows : list pyval) :
  property_csv w = Return rows ->
  ((exists data, trees_json w = Return data /\ truthy data = false) \/
   (exists e, trees_json w = Raised e /\ is_value_error e = true) ->
   Application.run w = ([], Application.Fails (Builtin ValueError))) /\
  (forall data,
     trees_json w = Return data -> truthy data = true ->
     is_dict data = false ->
     Application.run w = ([], Application.Fails (Builtin AttributeError))).
Proof.
  intros Hc. unfold Application.run.
  rewrite CSVParser_extract_id, JSONParser_extract_cases, Hc. split.
  - intros [(data & -> & ->)|(e & -> & ->)]; reflexivity.
  - intros data -> Ht Hd. rewrite Ht, construct_unfold.
    destruct data; try discriminate; cbn in Ht |- *; now rewrite Ht.
Qed.

Lemma run_unusable_taxonomy_witness :
  property_csv (Worlds.reading (Return []) (Raised JSONDecodeError))
    = Return [] /\
  Application.run (Worlds.reading (Return []) (Raised JSONDecodeError))
    = ([], Application.Fails (Builtin ValueError)) /\
  Application.run (Worlds.reading (Return []) (Return (PyList [PyInt 1])))
    = ([], Application.Fails (Builtin AttributeError)).
Proof.
  split; [reflexivity|]. split.
  - apply (proj1 (run_unusable_taxonomy
                    (Worlds.reading (Return []) (Raised JSONDecodeError))
                    [] eq_refl)).
    right. now exists JSONDecodeError.
  - exact (proj2 (run_unusable_taxonomy
                    (Worlds.reading (Return []) (Return (PyList [PyInt 1])))
                    [] eq_refl)
             (PyList [PyInt 1]) eq_refl eq_refl eq_refl).
Defined.

(** X16.  [run] returns only after both files were read, the JSON
    document was an object that is not empty and flattens, the
    configuration file was found, and both averages were computed over
    the rows and the flattened index; its two messages are the average
    for the tall trees, then the average for the short trees. *)
Theorem run_returns (w : world) (log : list Application.event) :
  Application.run w = (log, Application.Returns) ->
  exists rows t flattened tall short,
    property_csv w = Return rows /\
    trees_json w = Return (PyDict t) /\ t <> [] /\
    flatten_street_trees t = Ok flattened /\
    config_exists w = true /\
    Reporting.calculate_average_price
      {| property_sales := rows; street_trees := flattened |} "tall"
      = Ok tall /\
    Reporting.calculate_average_price
      {| property_sales := rows; street_trees := flattened |} "short"
      = Ok short /\
    log = [Application.Info_tall tall; Application.Info_short short].
Proof.
  unfold Application.run.
  rewrite CSVParser_extract_id, JSONParser_extract_cases.
  destruct (property_csv w) as [rows|e];
    [|destruct (is_file_not_found e); discriminate].
  destruct (trees_json w) as [data|e];
    [|destruct (is_value_error e); [discriminate|];
      destruct (is_file_not_found e); discriminate].
  destruct (truthy data) eqn:Ht; [|discriminate].
  rewrite construct_unfold.
  destruct (flatten_any data) as [flattened|e] eqn:Hf; [|discriminate].
  destruct (Logger.get_logger w) as [logger|e] eqn:Hl; [|discriminate].
  unfold Reporting.calculate_average_price_tall_trees,
    Reporting.calculate_average_price_short_trees.
  destruct (Reporting.calculate_average_price _ "tall") as [tall|e] eqn:Htall;
    [|discriminate].
  destruct (Reporting.calculate_average_price _ "short") as [short|e]
    eqn:Hshort; [|discriminate].
  intros [= <-].
  destruct (flatten_any_Ok data flattened Hf Ht) as (t & -> & Hne & Hft).
  exists rows, t, flattened, tall, short.
  apply get_logger_needs_config_aux in Hl. now repeat split.
Qed.

Lemma run_returns_witness :
  Application.run Worlds.complete =
  ([Application.Info_tall (F64.of_Z 135000);
    Application.Info_short (F64.of_Z 114750)], Application.Returns) /\
  exists rows t flattened tall short,
    property_csv Worlds.complete = Return rows /\
    trees_json Worlds.complete = Return (PyDict t) /\ t <> [] /\
    flatten_street_trees t = Ok flattened /\
    config_exists Worlds.complete = true /\
    Reporting.calculate_average_price
      {| property_sales := rows; street_trees := flattened |} "tall"
      = Ok tall /\
    Reporting.calculate_average_price
      {| property_sales := rows; street_trees := flattened |} "short"
      = Ok short /\
    [Application.Info_tall (F64.of_Z 135000);
     Application.Info_short (F64.of_Z 114750)]
    = [Application.Info_tall tall; Application.Info_short short].
Proof.
  split; [exact run_complete|].
  exact (run_returns Worlds.complete _ run_complete).
Defined.

(** X17.  The script builds the logger before it runs: when that fails,
    nothing is read and the exception ends the program; when [run] would
    return, the script returns with the same messages; and an exit code
    of the script is an exit code of [run] with the logger in place. *)
Theorem main_and_run (w : world) :
  (forall e,
     Logger.get_logger w = Raised e ->
     Application.main w = ([], Application.Fails e)) /\
  (forall log,
     Application.run w = (log, Application.Returns) ->
     Application.main w = (log, Application.Returns)) /\
  (forall log code,
     Application.main w = (log, Application.Exits code) ->
     Application.run w = (log, Application.Exits code) /\
     config_exists w = true).
Proof.
  unfold Application.main, Application.init. split; [|split].
  - now intros e ->.
  - intros log Hr. destruct (Logger.get_logger w) as [logger|e] eqn:Hl;
      [exact Hr|].
    exfalso. revert Hr. unfold Application.run.
    rewrite CSVParser_extract_id, JSONParser_extract_cases.
    destruct (property_csv w) as [rows|e'];
      [|destruct (is_file_not_found e'); discriminate].
    destruct (trees_json w) as [data|e'];
      [|destruct (is_value_error e'); [discriminate|];
        destruct (is_file_not_found e'); discriminate].
    destruct (truthy data); [|discriminate].
    rewrite construct_unfold, Hl.
    destruct (flatten_any data); discriminate.
  - intros log code. destruct (Logger.get_logger w) as [logger|e] eqn:Hl;
      [|discriminate].
    intros Hr. split; [exact Hr|]. now apply get_logger_needs_config_aux in Hl.
Qed.

(** * More properties of the flattener *)

Section index_shape.

Implicit Types (f : index) (k c : string) (ms : list (string * string)).

Lemma flags_set_empty : flags_set ∅.
Proof. intros street types H. rewrite lookup_empty in H. discriminate. Qed.

Lemma flags_set_record_street k c f :
  flags_set f -> flags_set (record_street k c f).
Proof.
  intros Hf street types. rewrite record_street_lookup.
  destruct (decide (k = street)) as [->|Hne]; [|apply Hf].
  intros [= <-]. split; [apply insert_non_empty|].
  intros tree_type b. rewrite lookup_insert.
  destruct (decide (c = tree_type)) as [->|Hc]; [now intros [= <-]|].
  destruct (f !! street) as [old|] eqn:E; simpl.
  - apply (Hf street old E).
  - rewrite lookup_empty. discriminate.
Qed.

Lemma flags_set_record_marks ms f :
  flags_set f -> flags_set (record_marks ms f).
Proof.
  revert f. induction ms as [|m ms IH]; intros f Hf; [exact Hf|].
  rewrite record_marks_cons. now apply IH, flags_set_record_street.
Qed.

Lemma category_leaves_app (t1 t2 : pydict) :
  category_leaves (t1 ++ t2)%list
  = (category_leaves t1 ++ category_leaves t2)%list.
Proof.
  induction t1 as [|[c v] t1 IH]; [reflexivity|].
  rewrite <- app_comm_cons. cbn [category_leaves].
  now rewrite IH, app_assoc.
Qed.

End index_shape.

(** X18.  The index the flattener returns is well formed: no street has
    an empty entry, every flag stored is [True], and every category of an
    entry is a top-level key of the taxonomy (the keys of the levels in
    between are never taken for categories). *)
Theorem flattened_index_well_formed (t : pydict) (flattened : index) :
  flatten_street_trees t = Ok flattened ->
  flags_set flattened /\
  (forall street types tree_type,
     flattened !! street = Some types -> is_Some (types !! tree_type) ->
     exists nested_data, (tree_type, nested_data) ∈ t).
Proof.
  intros Hf. pose proof (flatten_street_trees_Ok _ _ Hf) as [_ Heq].
  assert (Hset : flags_set flattened).
  { rewrite Heq. apply flags_set_record_marks, flags_set_empty. }
  split; [exact Hset|]. intros street types tree_type Hs [b Hb].
  assert (b = true) as -> by (eapply (Hset street types Hs); exact Hb).
  assert (F : flag flattened street tree_type = Some true)
    by (apply flag_lookup; eauto).
  apply (flattened_flag t flattened street tree_type Hf) in F as (v & Hin & _).
  apply elem_of_category_leaves in Hin as (c & v' & kv & Hin & _ & Heq').
  injection Heq' as -> _ _. now exists v'.
Qed.

Lemma flattened_index_well_formed_witness :
  flatten_street_trees Reference.street_trees = Ok Reference.expected_index /\
  flags_set Reference.expected_index /\
  (forall street types tree_type,
     Reference.expected_index !! street = Some types ->
     is_Some (types !! tree_type) ->
     exists nested_data, (tree_type, nested_data) ∈ Reference.street_trees).
Proof.
  split; [exact reference_flatten|].
  exact (flattened_index_well_formed Reference.street_trees
           Reference.expected_index reference_flatten).
Defined.

(** X19.  Flattening composes: a taxonomy made of the categories of two
    taxonomies flattens when both do, and its index holds the streets and
    the flags of the two indexes together. *)
Theorem flatten_concatenation (t1 t2 : pydict) (f1 f2 : index) :
  flatten_street_trees t1 = Ok f1 ->
  flatten_street_trees t2 = Ok f2 ->
  exists flattened,
    flatten_street_trees (t1 ++ t2)%list = Ok flattened /\
    (forall street,
       is_Some (flattened !! street) <->
       is_Some (f1 !! street) \/ is_Some (f2 !! street)) /\
    (forall street tree_type,
       flag flattened street tree_type = Some true <->
       flag f1 street tree_type = Some true \/
       flag f2 street tree_type = Some true).
Proof.
  intros [H1 ->]%flatten_street_trees_Ok [H2 ->]%flatten_street_trees_Ok.
  assert (H : categories_are_dicts (t1 ++ t2)%list) by now apply Forall_app.
  eexists. split; [now apply flatten_street_trees_ok|].
  rewrite category_leaves_app, marks_app. split.
  - intros street. rewrite !record_marks_is_Some, !lookup_empty.
    setoid_rewrite elem_of_app. split.
    + intros [[? ?]|[c [Hc|Hc]]]; [discriminate| |]; [left|right]; right;
        now exists c.
    + intros [[[? ?]|[c Hc]]|[[? ?]|[c Hc]]]; try discriminate; right;
        exists c; [now left|now right].
  - intros street tree_type. rewrite !flag_record_marks.
    unfold flag at 1 2 3. rewrite !lookup_empty. simpl.
    destruct (decide ((tree_type, street) ∈
                (marks (category_leaves t1) ++ marks (category_leaves t2))%list))
      as [Hin|Hin].
    + split; [intros _|reflexivity].
      apply elem_of_app in Hin as [Hin|Hin]; [left|right];
        now rewrite decide_True.
    + split; [discriminate|].
      intros [H0|H0]; exfalso; apply Hin, elem_of_app; [left|right];
        now destruct (decide (_ ∈ marks _)).
Qed.

Lemma flatten_concatenation_witness :
  exists f1 f2 flattened,
    flatten_street_trees Samples.short_only = Ok f1 /\
    flatten_street_trees Samples.tall_only = Ok f2 /\
    flatten_street_trees (Samples.short_only ++ Samples.tall_only)%list
      = Ok flattened /\
    (forall street tree_type,
       flag flattened street tree_type = Some true <->
       flag f1 street tree_type = Some true \/
       flag f2 street tree_type = Some true).
Proof.
  pose proof (flatten_street_trees_ok Samples.short_only
                ltac:(repeat constructor)) as H1.
  pose proof (flatten_street_trees_ok Samples.tall_only
                ltac:(repeat constructor)) as H2.
  destruct (flatten_concatenation _ _ _ _ H1 H2) as (flattened & H & _ & F).
  eexists _, _, flattened. split; [exact H1|]. split; [exact H2|].
  split; [exact H|exact F].
Defined.

(** * More properties of the aggregator *)

Section reporting_loop.

Implicit Types (trees : index) (c : string) (t : tally) (p : pyval).
Implicit Types (sales : list pyval).

(** What the [try] block computes does not depend on the category,
    except for the last test. *)
Lemma examine_category trees p :
  exists r : result (F64.float * gmap string bool),
    forall c,
      examine trees c p =
      match r with
      | Ok (price, types) =>
          Ok (if bool_decide (is_Some (types !! c)) then Some price else None)
      | Raise e => Raise e
      end.
Proof.
  unfold examine.
  destruct (py_in "Price" p) as [[|]|e]; cbn [mbind result_bind bind negb];
    try (now eexists (Raise _)).
  destruct (py_in "Street Name" p) as [[|]|e];
    cbn [mbind result_bind bind negb]; try (now eexists (Raise _)).
  destruct (py_get p "Street Name" (PyStr "")) as [street|e];
    cbn [mbind result_bind bind]; try (now eexists (Raise _)).
  destruct (py_lower street) as [street_name|e];
    cbn [mbind result_bind bind]; try (now eexists (Raise _)).
  destruct (py_get p "Price" (PyStr "0")) as [price|e];
    cbn [mbind result_bind bind]; try (now eexists (Raise _)).
  destruct (price_of price) as [x|e];
    cbn [mbind result_bind bind]; try (now eexists (Raise _)).
  destruct (String.eqb street_name ""); try (now eexists (Raise _)).
  destruct (trees !! street_name) as [types|]; [|now eexists (Raise _)].
  now exists (Ok (x, types)).
Qed.

(** The records that escape are those that raise [AttributeError]; every
    other exception of the [try] block is caught. *)
Lemma examine_cases trees c p :
  if escapes p then examine trees c p = Raise AttributeError
  else (exists o, examine trees c p = Ok o) \/
       (exists e, examine trees c p = Raise e /\ caught e = true).
Proof.
  destruct p as [|b|n|x|s|l|d].
  - right. now exists TypeError.
  - right. now exists TypeError.
  - right. now exists TypeError.
  - right. now exists TypeError.
  - unfold escapes, examine.
    assert (H1 : exists b, py_in "Price" (PyStr s) = Ok b)
      by (eexists; reflexivity).
    assert (H2 : exists b, py_in "Street Name" (PyStr s) = Ok b)
      by (eexists; reflexivity).
    destruct H1 as [b1 ->], H2 as [b2 ->].
    destruct b1, b2; cbn [mbind result_bind bind negb py_get];
      first [reflexivity | right; now exists KeyError].
  - unfold escapes, examine.
    assert (H1 : exists b, py_in "Price" (PyList l) = Ok b)
      by (eexists; reflexivity).
    assert (H2 : exists b, py_in "Street Name" (PyList l) = Ok b)
      by (eexists; reflexivity).
    destruct H1 as [b1 ->], H2 as [b2 ->].
    destruct b1, b2; cbn [mbind result_bind bind negb py_get];
      first [reflexivity | right; now exists KeyError].
  - rewrite examine_dict. unfold escapes.
    destruct (dict_get d "Price") as [price|];
      [|right; now exists KeyError].
    destruct (dict_get d "Street Name") as [street|];
      [|right; now exists KeyError].
    destruct street as [|b|n|x|s|l|d']; try reflexivity.
    cbn [py_lower mbind result_bind bind].
    destruct (price_of price) as [x|e] eqn:Hp; cbn [bind].
    + destruct (String.eqb (Str.lower s) "");
        [right; now exists ValueError|].
      destruct (trees !! Str.lower s); [left; eauto|right; now exists KeyError].
    + right. exists e. split; [reflexivity|].
      now rewrite (price_of_raise _ _ Hp).
Qed.

Lemma halts_cases trees c p e :
  halts trees c p = Some e ->
  (e = AttributeError /\ escapes p = true) \/
  (e = ValueError /\ printable p = false).
Proof.
  unfold halts. pose proof (examine_cases trees c p) as H.
  destruct (escapes p).
  - rewrite H. cbn. intros [= <-]. now left.
  - destruct H as [[o ->]|(e' & -> & ->)]; [discriminate|].
    destruct (printable p); [discriminate|]. intros [= <-]. now right.
Qed.

Lemma reporting_visit_halts trees c p t :
  Reporting.visit trees c p t =
  match halts trees c p with
  | Some e => Raise e
  | None => visit trees c p t
  end.
Proof.
  unfold Reporting.visit, visit, halts.
  destruct (examine trees c p) as [[x|]|e]; try reflexivity.
  destruct (caught e); [|reflexivity]. now destruct (printable p).
Qed.

Lemma reporting_scan_cons trees c p sales t :
  Reporting.scan trees c (p :: sales) t =
  t' ← Reporting.visit trees c p t; Reporting.scan trees c sales t'.
Proof. reflexivity. Qed.

Lemma reporting_scan_app trees c l1 l2 t :
  Reporting.scan trees c (l1 ++ l2) t =
  t' ← Reporting.scan trees c l1 t; Reporting.scan trees c l2 t'.
Proof.
  revert t. induction l1 as [|p l1 IH]; intros t; [reflexivity|].
  rewrite <- app_comm_cons, !reporting_scan_cons.
  destruct (Reporting.visit trees c p t) as [t'|e]; [apply IH|reflexivity].
Qed.

Lemma printable_halts trees c p :
  printable p = true -> escapes p = false -> halts trees c p = None.
Proof.
  intros Hp He. destruct (halts trees c p) as [e|] eqn:H; [|reflexivity].
  apply halts_cases in H as [[_ H]|[_ H]]; congruence.
Qed.

(** Without a record that ends it, the loop with the message is the loop
    of the class model. *)
Lemma reporting_scan_plain trees c sales t :
  Forall (fun p => halts trees c p = None) sales ->
  Reporting.scan trees c sales t = scan trees c sales t.
Proof.
  intros Hall. revert t. induction Hall as [|p sales Hp Hall IH]; intros t;
    [reflexivity|].
  rewrite reporting_scan_cons, scan_cons, reporting_visit_halts, Hp.
  destruct (visit trees c p t) as [t'|e]; [apply IH|reflexivity].
Qed.

Lemma reporting_scan_Ok trees c sales t t' :
  Reporting.scan trees c sales t = Ok t' ->
  Forall (fun p => halts trees c p = None) sales.
Proof.
  revert t. induction sales as [|p sales IH]; intros t; [constructor|].
  rewrite reporting_scan_cons, reporting_visit_halts.
  destruct (halts trees c p) as [e|] eqn:Hp; [discriminate|].
  destruct (visit trees c p t) as [t1|e]; [|discriminate].
  intros H. constructor; [exact Hp|exact (IH _ H)].
Qed.

Lemma reporting_scan_Raise trees c sales t e :
  Reporting.scan trees c sales t = Raise e ->
  Exists (fun p => halts trees c p = Some e) sales.
Proof.
  revert t. induction sales as [|p sales IH]; intros t; [discriminate|].
  rewrite reporting_scan_cons, reporting_visit_halts.
  destruct (halts trees c p) as [e'|] eqn:Hp.
  - intros [= <-]. now apply Exists_cons_hd.
  - unfold visit. unfold halts in Hp.
    destruct (examine trees c p) as [[x|]|e'];
      cbn [mbind result_bind bind]; try (intros H; apply Exists_cons_tl;
        exact (IH _ H)).
    destruct (caught e'); [|discriminate].
    intros H. apply Exists_cons_tl. exact (IH _ H).
Qed.

Lemma average_of_Raise t e : average_of t = Raise e -> e = OverflowError.
Proof.
  unfold average_of. destruct (property_count t =? 0); cbn; [discriminate|].
  unfold F64.of_int. destruct (F64.of_Z (property_count t)); cbn;
    congruence.
Qed.

Lemma counted_prices_cons trees c p sales :
  counted_prices trees c (p :: sales) =
  match counted trees c p with
  | Some x => x :: counted_prices trees c sales
  | None => counted_prices trees c sales
  end.
Proof. reflexivity. Qed.

Lemma logged_records_cons trees c p sales :
  logged_records trees c (p :: sales) =
  match logged trees c p with
  | Some r => r :: logged_records trees c sales
  | None => logged_records trees c sales
  end.
Proof. reflexivity. Qed.

Lemma reporting_scan_fold trees c sales t :
  Forall (fun p => halts trees c p = None) sales ->
  Reporting.scan trees c sales t =
  Ok {| total_price :=
          foldl F64.add (total_price t) (counted_prices trees c sales);
        property_count :=
          property_count t
          + Z.of_nat (length (counted_prices trees c sales));
        skipped := (skipped t ++ logged_records trees c sales)%list |}.
Proof.
  intros Hall. revert t. induction Hall as [|p sales Hp Hall IH]; intros t.
  - cbn. rewrite Z.add_0_r, app_nil_r. now destruct t.
  - rewrite reporting_scan_cons, counted_prices_cons, logged_records_cons.
    unfold Reporting.visit, counted, logged. unfold halts in Hp.
    destruct (examine trees c p) as [[x|]|e]; cbn [mbind result_bind bind].
    + rewrite IH.
      cbn [count_in total_price property_count skipped foldl length].
      f_equal. f_equal. lia.
    + now rewrite IH.
    + destruct (caught e); [|discriminate].
      destruct (printable p); [|discriminate].
      cbn [mbind result_bind bind]. rewrite IH.
      cbn [skip total_price property_count skipped].
      now rewrite <- app_assoc.
Qed.

Lemma halts_None_escapes trees c p :
  halts trees c p = None -> escapes p = false.
Proof.
  intros H. pose proof (examine_cases trees c p) as Hx.
  destruct (escapes p); [|reflexivity].
  unfold halts in H. rewrite Hx in H. discriminate.
Qed.

Lemma accounting trees c sales :
  Forall (fun p => halts trees c p = None) sales ->
  length sales =
  (length (counted_prices trees c sales)
   + length (logged_records trees c sales)
   + length (filter (fun p => passed_over trees c p = true) sales))%nat.
Proof.
  intros Hall. induction Hall as [|p sales Hp Hall IH]; [reflexivity|].
  rewrite counted_prices_cons, logged_records_cons, filter_cons.
  unfold halts in Hp.
  destruct (examine trees c p) as [[x|]|e] eqn:E.
  - replace (counted trees c p) with (Some x)
      by (unfold counted; now rewrite E).
    replace (logged trees c p) with (@None (pyval * exn))
      by (unfold logged; now rewrite E).
    rewrite decide_False by (unfold passed_over; rewrite E; discriminate).
    cbn [length]. lia.
  - replace (counted trees c p) with (@None F64.float)
      by (unfold counted; now rewrite E).
    replace (logged trees c p) with (@None (pyval * exn))
      by (unfold logged; now rewrite E).
    rewrite decide_True by (unfold passed_over; now rewrite E).
    cbn [length]. lia.
  - destruct (caught e) eqn:Hc; [|discriminate].
    replace (counted trees c p) with (@None F64.float)
      by (unfold counted; now rewrite E).
    replace (logged trees c p) with (Some (p, e))
      by (unfold logged; now rewrite E, Hc).
    rewrite decide_False by (unfold passed_over; rewrite E; discriminate).
    cbn [length]. lia.
Qed.

End reporting_loop.

(** X20.  On records that can be printed, the loop with the message of
    the [except] block and the loop of the class model give the same
    result, for every index and category. *)
Theorem reporting_agrees_on_printable
    (self : PropertyValueStatistics) (tree_type : string) :
  Forall (fun property => printable property = true) (property_sales self) ->
  Reporting.calculate_average_price self tree_type =
  calculate_average_price self tree_type.
Proof.
  intros Hall. unfold Reporting.calculate_average_price, calculate_average_price.
  generalize start. induction Hall as [|p sales Hp Hall IH]; intros t;
    [reflexivity|].
  rewrite reporting_scan_cons, scan_cons, reporting_visit_halts.
  destruct (halts (street_trees self) tree_type p) as [e|] eqn:Hh.
  - apply halts_cases in Hh as [[-> He]|[_ Hn]]; [|congruence].
    pose proof (examine_cases (street_trees self) tree_type p) as Hx.
    rewrite He in Hx. unfold visit. now rewrite Hx.
  - destruct (visit (street_trees self) tree_type p t) as [t'|e];
      [apply IH|reflexivity].
Qed.

Lemma reporting_agrees_on_printable_witness :
  Forall (fun property => printable property = true)
    (property_sales Samples.reference) /\
  Reporting.calculate_average_price Samples.reference "tall" =
  calculate_average_price Samples.reference "tall".
Proof.
  assert (H : Forall (fun property => printable property = true)
                (property_sales Samples.reference))
    by (repeat constructor).
  split; [exact H|].
  exact (reporting_agrees_on_printable Samples.reference "tall" H).
Defined.

(** X21.  A record that the [except] clause catches and that holds an
    [int] of more than 4300 digits ends the method with [ValueError]:
    the message of the [except] block cannot be built.  The loop of the
    class model, which leaves the message out, skips the record. *)
Theorem unprintable_record_ends_the_loop
    (trees : index) (tree_type : string) (before after : list pyval)
    (property : pyval) (e : exn) :
  Forall (fun p => halts trees tree_type p = None) before ->
  examine trees tree_type property = Raise e -> caught e = true ->
  printable property = false ->
  Reporting.calculate_average_price
    {| property_sales := before ++ property :: after; street_trees := trees |}
    tree_type = Raise ValueError /\
  (forall t, visit trees tree_type property t = Ok (skip property e t)).
Proof.
  intros Hb He Hc Hp. split.
  - unfold Reporting.calculate_average_price. cbn [property_sales street_trees].
    rewrite reporting_scan_app, (reporting_scan_fold _ _ _ _ Hb).
    cbn [mbind result_bind bind]. rewrite reporting_scan_cons.
    unfold Reporting.visit. now rewrite He, Hc, Hp.
  - intros t. unfold visit. now rewrite He, Hc.
Qed.

(** The number of digits that [str] prints: an integer from [10 ^ k] on
    has more than [k] digits. *)
Lemma pretty_N_go_length (x : N) (s : string) :
  (String.length s <= String.length (pretty_N_go x s))%nat.
Proof.
  revert s. induction (N.lt_wf_0 x) as [x _ IH]; intros s.
  destruct (decide (x = 0)%N) as [->|Hx].
  - now rewrite pretty_N_go_0.
  - rewrite pretty_N_go_step by lia.
    etransitivity; [|apply IH; apply N.div_lt; lia].
    cbn [String.length]. lia.
Qed.

Lemma pretty_N_go_digits (k : nat) (x : N) (s : string) :
  (10 ^ N.of_nat k <= x)%N ->
  (k + String.length s < String.length (pretty_N_go x s))%nat.
Proof.
  revert x s. induction k as [|k IH]; intros x s Hx.
  - change (10 ^ N.of_nat 0)%N with 1%N in Hx.
    rewrite pretty_N_go_step by lia.
    pose proof (pretty_N_go_length (x `div` 10)
                  (String (pretty_N_char (x `mod` 10)) s)) as H.
    cbn [String.length] in H. lia.
  - rewrite Nat2N.inj_succ, N.pow_succ_r' in Hx.
    assert (Hpos : (0 < 10 ^ N.of_nat k)%N)
      by (apply N.neq_0_lt_0, N.pow_nonzero; discriminate).
    rewrite pretty_N_go_step by lia.
    assert (Hd : (10 ^ N.of_nat k <= x `div` 10)%N)
      by (apply N.div_le_lower_bound; lia).
    specialize (IH _ (String (pretty_N_char (x `mod` 10)) s) Hd).
    cbn [String.length] in IH. lia.
Qed.

Lemma pretty_digits (k : nat) (n : Z) :
  10 ^ Z.of_nat k <= n -> (k < String.length (pretty (Z.abs n)))%nat.
Proof.
  intros Hn.
  assert (Hpos : 0 < 10 ^ Z.of_nat k) by (apply Z.pow_pos_nonneg; lia).
  destruct n as [|p|p]; try lia.
  change (pretty (Z.abs (Z.pos p))) with (pretty (N.pos p)).
  unfold pretty, pretty_N. rewrite decide_False by discriminate.
  pose proof (pretty_N_go_digits k (N.pos p) "") as H.
  cbn [String.length] in H. rewrite Nat.add_0_r in H. apply H.
  apply N2Z.inj_le. now rewrite N2Z.inj_pow, nat_N_Z.
Qed.

Example long_number_digits :
  (4300 <? String.length (pretty (Z.abs Samples.long_number)))%nat = true.
Proof. apply Nat.ltb_lt, pretty_digits. apply Z.le_refl. Qed.

Lemma long_int_examine trees c street n :
  (4300 <? String.length (pretty (Z.abs n)))%nat = true ->
  examine trees c (PyDict [("Street Name", PyStr street); ("Price", PyInt n)])
  = Raise ValueError.
Proof.
  intros H. rewrite examine_dict.
  change (dict_get _ "Price") with (Some (PyInt n)).
  change (dict_get _ "Street Name") with (Some (PyStr street)).
  cbn [py_lower mbind result_bind bind price_of]. unfold str_int.
  now rewrite H.
Qed.

Lemma long_int_printable street n :
  (4300 <? String.length (pretty (Z.abs n)))%nat = true ->
  printable (PyDict [("Street Name", PyStr street); ("Price", PyInt n)])
  = false.
Proof. intros H. cbn [printable andb]. now rewrite H. Qed.

Example long_price_examine :
  examine Reference.expected_index "short" Samples.long_price
  = Raise ValueError.
Proof. exact (long_int_examine _ _ _ _ long_number_digits). Qed.

Example long_price_printable : printable Samples.long_price = false.
Proof. exact (long_int_printable _ _ long_number_digits). Qed.

Lemma unprintable_record_ends_the_loop_witness :
  examine Reference.expected_index "short" Samples.long_price
    = Raise ValueError /\
  printable Samples.long_price = false /\
  Reporting.calculate_average_price
    {| property_sales := Reference.property_sales ++ [Samples.long_price];
       street_trees := Reference.expected_index |} "short"
  = Raise ValueError.
Proof.
  split; [exact long_price_examine|]. split; [exact long_price_printable|].
  apply (unprintable_record_ends_the_loop Reference.expected_index "short"
           Reference.property_sales [] Samples.long_price ValueError).
  - repeat constructor.
  - exact long_price_examine.
  - reflexivity.
  - exact long_price_printable.
Defined.

(** X22.  When no record ends the loop, the loop is a fold over the
    list: the sum is the sum, from left to right, of the prices of the
    counted records, the count is their number, and the records logged
    are the caught ones in list order. *)
Theorem loop_is_a_fold
    (trees : index) (tree_type : string) (sales : list pyval) (t : tally) :
  Forall (fun p => halts trees tree_type p = None) sales ->
  Reporting.scan trees tree_type sales t =
  Ok {| total_price :=
          foldl F64.add (total_price t)
            (counted_prices trees tree_type sales);
        property_count :=
          property_count t
          + Z.of_nat (length (counted_prices trees tree_type sales));
        skipped :=
          (skipped t ++ logged_records trees tree_type sales)%list |}.
Proof. apply reporting_scan_fold. Qed.

Lemma loop_is_a_fold_witness :
  Forall (fun p => halts Reference.expected_index "short" p = None)
    Reference.property_sales /\
  Reporting.scan Reference.expected_index "short" Reference.property_sales start
  = Ok {| total_price := F64.of_Z 229500; property_count := 2;
          skipped := [] |}.
Proof.
  assert (H : Forall (fun p => halts Reference.expected_index "short" p = None)
                Reference.property_sales)
    by (repeat constructor).
  split; [exact H|].
  rewrite (loop_is_a_fold Reference.expected_index "short"
             Reference.property_sales start H).
  vm_compute. reflexivity.
Defined.

Example reference_scan_short :
  Reporting.scan Reference.expected_index "short" Reference.property_sales
    start
  = Ok {| total_price := F64.of_Z 229500; property_count := 2;
          skipped := [] |}.
Proof. vm_compute. reflexivity. Qed.

(** X23.  Every record is accounted for: when the loop ends, the count
    is the number of counted records, the records logged are the caught
    ones, and each record of the list was counted, logged, or passed
    over because its street does not carry the category. *)
Theorem every_record_is_accounted_for
    (trees : index) (tree_type : string) (sales : list pyval) (t : tally) :
  Reporting.scan trees tree_type sales start = Ok t ->
  property_count t
    = Z.of_nat (length (counted_prices trees tree_type sales)) /\
  skipped t = logged_records trees tree_type sales /\
  length sales =
  (length (counted_prices trees tree_type sales)
   + length (skipped t)
   + length (filter (fun p => passed_over trees tree_type p = true) sales))%nat.
Proof.
  intros Hs. pose proof (reporting_scan_Ok _ _ _ _ _ Hs) as Hall.
  rewrite (reporting_scan_fold _ _ _ _ Hall) in Hs. injection Hs as <-.
  cbn [property_count skipped start app]. split; [lia|].
  split; [reflexivity|]. now apply accounting.
Qed.

Lemma every_record_is_accounted_for_witness :
  Reporting.scan Reference.expected_index "short" Reference.property_sales
    start
  = Ok {| total_price := F64.of_Z 229500; property_count := 2;
          skipped := [] |} /\
  2 = Z.of_nat (length (counted_prices Reference.expected_index "short"
                          Reference.property_sales)) /\
  length (filter (fun p => passed_over Reference.expected_index "short" p
                           = true) Reference.property_sales) = 1%nat.
Proof.
  split; [exact reference_scan_short|].
  destruct (every_record_is_accounted_for _ _ _ _ reference_scan_short)
    as (Hc & _ & Hl).
  split; [exact Hc|]. cbn [property_count skipped length] in Hc, Hl.
  change (length Reference.property_sales) with 3%nat in Hl. lia.
Defined.

(** X24.  The count and the records logged do not depend on the order of
    the rows: over a permutation of the list the loop ends as well, with
    the same count and the same records logged, in another order.  (The
    sum is a sum of floats from left to right, which depends on the
    order.) *)
Theorem count_is_order_independent
    (trees : index) (tree_type : string) (sales sales' : list pyval)
    (t : tally) :
  sales ≡ₚ sales' ->
  Reporting.scan trees tree_type sales start = Ok t ->
  exists t',
    Reporting.scan trees tree_type sales' start = Ok t' /\
    property_count t' = property_count t /\
    skipped t' ≡ₚ skipped t.
Proof.
  intros Hp Hs. pose proof (reporting_scan_Ok _ _ _ _ _ Hs) as Hall.
  assert (Hall' : Forall (fun p => halts trees tree_type p = None) sales')
    by now rewrite <- Hp.
  rewrite (reporting_scan_fold _ _ _ _ Hall) in Hs. injection Hs as <-.
  eexists. split; [apply (reporting_scan_fold _ _ _ _ Hall')|].
  cbn [property_count skipped start app]. unfold counted_prices, logged_records.
  split; [|now rewrite Hp].
  do 2 f_equal. apply Permutation_length. now rewrite Hp.
Qed.

Lemma count_is_order_independent_witness :
  Reference.property_sales ≡ₚ reverse Reference.property_sales /\
  exists t',
    Reporting.scan Reference.expected_index "short"
      (reverse Reference.property_sales) start = Ok t' /\
    property_count t' = 2.
Proof.
  assert (Hp : Reference.property_sales ≡ₚ reverse Reference.property_sales)
    by (symmetry; apply reverse_Permutation).
  split; [exact Hp|].
  destruct (count_is_order_independent _ _ _ _ _ Hp reference_scan_short)
    as (t' & Hs & Hc & _).
  exists t'. split; [exact Hs|exact Hc].
Defined.

(** X25.  The records that raise [AttributeError] in the [try] block are
    known from their shape: a dictionary with both fields whose street
    name is not a string, or a list or a string that holds both field
    names.  Every other exception of the block is one the [except] clause
    lists. *)
Theorem escaping_records
    (trees : index) (tree_type : string) (property : pyval) :
  (examine trees tree_type property = Raise AttributeError <->
   escapes property = true) /\
  (forall e,
     examine trees tree_type property = Raise e -> e <> AttributeError ->
     caught e = true).
Proof.
  pose proof (examine_cases trees tree_type property) as H.
  destruct (escapes property).
  - rewrite H. split; [tauto|]. intros e [= <-] He. contradiction.
  - destruct H as [[o ->]|(e & -> & Hc)].
    + split; [split; discriminate|discriminate].
    + split; [split; [|discriminate]|].
      * intros [= ->]. discriminate.
      * now intros e' [= <-] _.
Qed.

(** X26.  How [_calculate_average_price] ends.  It returns only when no
    record escapes; it raises [AttributeError] only on a list with an
    escaping record, [ValueError] only on a list with a record that
    cannot be printed, and otherwise [OverflowError] (a count too large
    for a float) and nothing else. *)
Theorem average_outcomes
    (self : PropertyValueStatistics) (tree_type : string) :
  match Reporting.calculate_average_price self tree_type with
  | Ok _ => Forall (fun p => escapes p = false) (property_sales self)
  | Raise e =>
      (e = AttributeError /\
       Exists (fun p => escapes p = true) (property_sales self)) \/
      (e = ValueError /\
       Exists (fun p => printable p = false) (property_sales self)) \/
      (e = OverflowError /\
       Forall (fun p => escapes p = false) (property_sales self))
  end.
Proof.
  unfold Reporting.calculate_average_price.
  destruct (Reporting.scan (street_trees self) tree_type (property_sales self)
              start) as [t|e] eqn:Hs; cbn [mbind result_bind bind].
  - apply reporting_scan_Ok in Hs.
    assert (He : Forall (fun p => escapes p = false) (property_sales self)).
    { eapply Forall_impl; [exact Hs|]. intros p. apply halts_None_escapes. }
    destruct (average_of t) as [r|e] eqn:Ha; [exact He|].
    right. right. split; [now apply (average_of_Raise t)|exact He].
  - apply reporting_scan_Raise in Hs.
    assert (H : Exists (fun p => (e = AttributeError /\ escapes p = true) \/
                                 (e = ValueError /\ printable p = false))
                  (property_sales self)).
    { eapply Exists_impl; [exact Hs|]. intros p. apply halts_cases. }
    clear Hs. induction H as [p l [[-> Hp]|[-> Hp]]|p l H IH].
    + left. split; [reflexivity|]. now apply Exists_cons_hd.
    + right. left. split; [reflexivity|]. now apply Exists_cons_hd.
    + destruct IH as [[-> IH]|[[-> IH]|[-> IH]]].
      * left. split; [reflexivity|]. now apply Exists_cons_tl.
      * right. left. split; [reflexivity|]. now apply Exists_cons_tl.
      * exfalso. apply Exists_exists in H as (q & _ & [[? _]|[? _]]);
          discriminate.
Qed.



(** X28.  The category selects among the valid records and does nothing
    else: whether a record is logged, with which exception, and whether
    it ends the loop do not depend on the category, so the two public
    calls log the same records; and a record counted for two categories
    is counted at the same price. *)
Theorem category_only_selects
    (trees : index) (c1 c2 : string) (property : pyval) :
  logged trees c1 property = logged trees c2 property /\
  halts trees c1 property = halts trees c2 property /\
  (forall sales, logged_records trees c1 sales = logged_records trees c2 sales) /\
  (forall x1 x2,
     counted trees c1 property = Some x1 ->
     counted trees c2 property = Some x2 -> x1 = x2).
Proof.
  assert (L : forall p, logged trees c1 p = logged trees c2 p).
  { intros p. destruct (examine_category trees p) as [r Hr].
    unfold logged. rewrite !Hr. now destruct r as [[x types]|e]. }
  split; [apply L|]. split; [|split].
  - destruct (examine_category trees property) as [r Hr].
    unfold halts. rewrite !Hr. now destruct r as [[x types]|e].
  - intros sales. unfold logged_records.
    induction sales as [|p sales IH]; [reflexivity|].
    cbn [omap list_omap]. now rewrite L, IH.
  - destruct (examine_category trees property) as [r Hr].
    unfold counted. rewrite !Hr. destruct r as [[x types]|e];
      [|discriminate].
    intros x1 x2. do 2 case_bool_decide; congruence.
Qed.

(** * The constructor *)

(** X29.  What the constructor accepts.  It stores the sales as they are
    given; it takes a falsy taxonomy ([None], [0], an empty string, list
    or dictionary) for the empty index, and otherwise wants a dictionary
    whose categories are dictionaries: a truthy value of another type,
    or a category that is not a dictionary, raises [AttributeError]
    before the logger is fetched. *)
Theorem constructor_outcomes
    (w : world) (sales : list pyval) (trees : pyval) :
  (forall self level,
     construct w sales trees = Return (self, level) ->
     property_sales self = sales /\
     Logger.get_logger w = Return level /\
     ((truthy trees = false /\ street_trees self = ∅) \/
      (exists t, trees = PyDict t /\ categories_are_dicts t /\
                 flatten_street_trees t = Ok (street_trees self)))) /\
  ((truthy trees = true /\ is_dict trees = false) \/
   (exists t, trees = PyDict t /\ ~ categories_are_dicts t) ->
   construct w sales trees = Raised (Builtin AttributeError)).
Proof.
  rewrite construct_unfold. split.
  - intros self level.
    destruct (flatten_any trees) as [flattened|e] eqn:Hf; [|discriminate].
    destruct (Logger.get_logger w) as [logger|e]; [|discriminate].
    intros [= <- <-]. split; [reflexivity|]. split; [reflexivity|].
    cbn [street_trees]. destruct (truthy trees) eqn:Ht.
    + right. destruct (flatten_any_Ok trees flattened Hf Ht) as (t & -> & _ & H).
      exists t. split; [reflexivity|]. split; [|exact H].
      now apply flatten_street_trees_Ok in H.
    + left. split; [reflexivity|].
      destruct trees as [|b|n|x|s|l|t]; cbn in Hf, Ht; rewrite ?Ht in Hf;
        try (now injection Hf).
      destruct t; [now injection Hf|discriminate].
  - intros [[Ht Hd]|(t & -> & Hn)].
    + destruct trees; try discriminate; cbn in Ht |- *; now rewrite Ht.
    + cbn [flatten_any]. now rewrite flatten_street_trees_raise.
Qed.
